(** * tkliner/stats: the request-metrics recorder of [stats.go]

    A shallow embedding of the [Stats] recorder (package [stats]) and the
    properties of its counters.

    Conventions of the embedding:
    - Go's [int] and [int64] are 64-bit two's complement integers: a [Z]
      together with [Go.wrap], applied wherever the source does arithmetic.
    - A Go [map[string]int] is a reference: the recorder holds [mapref]s
      into a heap of map objects ([gmap string Z]), [nil] is [None].
    - A [*fasthttp.RequestCtx] is an index into a heap of request contexts.
    - [time.Now()] and [os.Getpid()] read the environment: every operation
      that calls them takes the value that was read as an argument.
    - [sync.RWMutex] serialises the operations; each operation below is one
      critical section, and a run of the program is a sequence of them.
    - A Go panic (write to a nil map, nil dereference, division by zero) is
      the result [None]. *)

From stdpp Require Import base numbers option list strings pretty gmap fin_maps.
From Stdlib Require Import ZArith Lia Ascii.

Open Scope Z_scope.

(** ** The parts of Go the recorder uses *)

Module Go.

(** [int] (and [int64]) on a 64-bit platform. *)
Definition int_min : Z := - 2 ^ 63.
Definition int_max : Z := 2 ^ 63 - 1.
Definition in_int (z : Z) : Prop := int_min <= z <= int_max.

Definition wrap (z : Z) : Z := (z + 2 ^ 63) mod 2 ^ 64 - 2 ^ 63.

(** [x + y], [x++] and [x += y] on [int]. *)
Definition int_add (x y : Z) : Z := wrap (x + y).

(** [x / y] on [int64]: truncated towards zero, panics on a zero
    divisor. *)
Definition int64_div (x y : Z) : option Z :=
  if decide (y = 0) then None else Some (wrap (x ÷ y)).

(** [fmt.Sprintf("%d", n)]: the decimal rendering, with a leading minus
    sign for negative numbers. *)
Definition Sprintf_d (n : Z) : string := pretty n.

(** [m[k]] as an expression: the zero value when the key is absent. *)
Definition index (m : gmap string Z) (k : string) : Z := default 0 (m !! k).

(** [m[k]++] on a (non-nil) map object. *)
Definition incr (k : string) (m : gmap string Z) : gmap string Z :=
  <[k := int_add (index m k) 1]> m.

(** *** Package [time]

    A [time.Time] is the number of nanoseconds since the zero Time
    [time.Time{}]; a [time.Duration] is an [int64] count of nanoseconds.
    [Time.Sub] saturates at the least and greatest Duration, as its
    documentation says; the range of [time.Time] itself (about 292
    billion years) is not modelled. *)
Definition Time := Z.
Definition Duration := Z.

Definition Time_zero : Time := 0.
Definition minDuration : Duration := - 2 ^ 63.
Definition maxDuration : Duration := 2 ^ 63 - 1.

Definition saturate (d : Z) : Duration :=
  if decide (d < minDuration) then minDuration
  else if decide (maxDuration < d) then maxDuration
  else d.

Definition Time_Sub (t u : Time) : Duration := saturate (t - u).
Definition Time_Add (t : Time) (d : Duration) : Time := t + d.

(** [Time.Unix]: seconds since January 1, 1970 UTC; the zero Time is
    January 1 of year 1. *)
Definition unixToInternal : Z := 62135596800.
Definition Time_Unix (t : Time) : Z := t `div` 1000000000 - unixToInternal.

(** The renderings of package [time] that [Data] only passes through:
    [Duration.String], [Duration.Seconds] (a [float64]) and
    [Time.String]. *)
Class Render := {
  float64 : Type;
  Duration_String : Duration -> string;
  Duration_Seconds : Duration -> float64;
  Time_String : Time -> string;
}.

End Go.

Import Go.

(** ** The data model *)

(** A reference to a Go map object; [None] is the nil map. *)
Definition mapref := option nat.

(** [type Stats struct]. The mutex has no field here: see the conventions. *)
Record Stats := mkStats {
  Uptime : Time;
  Pid : Z;
  ResponseCounts : mapref;
  TotalResponseCounts : mapref;
  TotalResponseTime : Time;
}.

(** fasthttp is an external collaborator of this package. Of a
    [fasthttp.RequestCtx] the recorder touches the status code of the
    response only, which the specification describes as a field that the
    handler sets and [End] reads. *)
Record RequestCtx := mkRequestCtx {
  Response_statusCode : Z;
}.

(** [ctx.SetStatusCode(s)] and [ctx.Response.StatusCode()]. *)
Definition SetStatusCode (s : Z) (r : RequestCtx) : RequestCtx :=
  {| Response_statusCode := s |}.
Definition Response_StatusCode (r : RequestCtx) : Z := Response_statusCode r.

(** The recorder [mw], the heap of map objects and the heap of request
    contexts. *)
Record World := mkWorld {
  mw : Stats;
  maps : list (gmap string Z);
  ctxs : list RequestCtx;
}.

(** [type Data struct]. The fields [Pid], [Time] and [TotalResponseTime]
    carry a mark here, because [Stats] and package [time] have these names
    already; for the same reason the method [Data] is [Stats_Data] below. *)
Record Data `{Render} := mkData {
  D_Pid : Z;
  UpTime : string;
  UpTimeSec : float64;
  Time_ : string;
  TimeUnix : Z;
  StatusCodeCount : mapref;
  TotalStatusCodeCount : mapref;
  Count : Z;
  TotalCount : Z;
  D_TotalResponseTime : string;
  TotalResponseTimeSec : float64;
  AverageResponseTime : string;
  AverageResponseTimeSec : float64;
}.

(** ** Heap access *)

(** Reading through a map reference: a nil map reads as the empty map.
    References come from allocation only, so the last case is not reached
    from [New]. *)
Definition deref (h : list (gmap string Z)) (r : mapref) : gmap string Z :=
  match r with
  | None => ∅
  | Some l => default ∅ (h !! l)
  end.

(** [make(map[string]int)] and [map[string]int{}]: a new object at the end
    of the heap. *)
Definition alloc (h : list (gmap string Z)) (m : gmap string Z)
  : nat * list (gmap string Z) :=
  (length h, h ++ [m]).

(** ** Operations: a state monad with panics *)

Definition M (A : Type) : Type := World -> option (A * World).

Definition ret {A} (a : A) : M A := fun w => Some (a, w).
Definition bind {A B} (m : M A) (f : A -> M B) : M B :=
  fun w => match m w with
           | Some (a, w') => f a w'
           | None => None
           end.

Notation "'let*' x := m 'in' f" := (bind m (fun x => f))
  (at level 10, x name, m at level 100, f at level 200,
   format "'[v' 'let*'  x  :=  m  'in' '/' f ']'").
Notation "m ;;; f" := (bind m (fun _ => f))
  (at level 100, f at level 200, right associativity).

Definition get_mw : M Stats := fun w => Some (mw w, w).
Definition set_mw (s : Stats) : M unit :=
  fun w => Some (tt, mkWorld s (maps w) (ctxs w)).

(** [map[string]int{}] *)
Definition new_map : M mapref :=
  fun w => let '(l, h) := alloc (maps w) ∅ in
           Some (Some l, mkWorld (mw w) h (ctxs w)).

(** [r[k]++]: panics on a nil map. *)
Definition map_incr (r : mapref) (k : string) : M unit :=
  fun w => match r with
           | None => None
           | Some l =>
             match maps w !! l with
             | None => None
             | Some m =>
               Some (tt, mkWorld (mw w) (<[l := incr k m]> (maps w)) (ctxs w))
             end
           end.

(** Reading and writing [*ctx]: a handle outside the heap stands for the
    nil pointer, and dereferencing it panics. *)
Definition load_ctx (ctx : nat) : M RequestCtx :=
  fun w => match ctxs w !! ctx with
           | Some r => Some (r, w)
           | None => None
           end.
Definition store_ctx (ctx : nat) (r : RequestCtx) : M unit :=
  fun w => match ctxs w !! ctx with
           | Some _ => Some (tt, mkWorld (mw w) (maps w) (<[ctx := r]> (ctxs w)))
           | None => None
           end.

(** [func New() *Stats], in a process that already has the heaps [h] and
    [cs]. The goroutine it starts calls [ResetResponseCounts] once a
    second: those calls are steps of the runs below. *)
Definition New (now : Time) (pid : Z)
    (h : list (gmap string Z)) (cs : list RequestCtx) : World :=
  let '(l1, h1) := alloc h ∅ in
  let '(l2, h2) := alloc h1 ∅ in
  mkWorld {| Uptime := now;
             Pid := pid;
             ResponseCounts := Some l1;
             TotalResponseCounts := Some l2;
             TotalResponseTime := Time_zero |} h2 cs.

(** [func (mw *Stats) ResetResponseCounts()] *)
Definition ResetResponseCounts : M unit :=
  let* r := new_map in
  let* s := get_mw in
  set_mw {| Uptime := Uptime s;
            Pid := Pid s;
            ResponseCounts := r;
            TotalResponseCounts := TotalResponseCounts s;
            TotalResponseTime := TotalResponseTime s |}.

(** [func (mw *Stats) Begin(ctx)]; [now] is what [time.Now()] returns. *)
Definition Begin (now : Time) (ctx : nat) : M (Time * nat) :=
  let start := now in
  let* r := load_ctx ctx in
  store_ctx ctx (SetStatusCode 200 r) ;;;
  ret (start, ctx).

(** [func (mw *Stats) EndWithStatus(start, status)] *)
Definition EndWithStatus (now start : Time) (status : Z) : M unit :=
  let end_ := now in
  let responseTime := Time_Sub end_ start in
  let statusCode := Sprintf_d status in
  let* s := get_mw in
  map_incr (ResponseCounts s) statusCode ;;;
  let* s := get_mw in
  map_incr (TotalResponseCounts s) statusCode ;;;
  let* s := get_mw in
  set_mw {| Uptime := Uptime s;
            Pid := Pid s;
            ResponseCounts := ResponseCounts s;
            TotalResponseCounts := TotalResponseCounts s;
            TotalResponseTime := Time_Add (TotalResponseTime s) responseTime |}.

(** [func (mw *Stats) End(start, ctx)] *)
Definition End (now start : Time) (ctx : nat) : M unit :=
  let* r := load_ctx ctx in
  EndWithStatus now start (Response_StatusCode r).

(** [func (mw *Stats) Handler(h)], applied to [ctx]; [now0] and [now1] are
    the two readings of the clock. *)
Definition Handler (h : nat -> M unit) (now0 now1 : Time) (ctx : nat) : M unit :=
  let* p := Begin now0 ctx in
  let '(beginning, recorder) := p in
  h recorder ;;;
  End now1 beginning recorder.

(** Reading a whole map object ([len], [range]) and [r[k] = v]. *)
Definition read_map (r : mapref) : M (gmap string Z) :=
  fun w => Some (deref (maps w) r, w).
Definition map_store (r : mapref) (k : string) (v : Z) : M unit :=
  fun w => match r with
           | None => None
           | Some l =>
             match maps w !! l with
             | None => None
             | Some m =>
               Some (tt, mkWorld (mw w) (<[l := <[k := v]> m]> (maps w)) (ctxs w))
             end
           end.
Definition lift {A} (o : option A) : M A :=
  fun w => match o with Some a => Some (a, w) | None => None end.

(** The loop [for code, current := range src { dst[code] = current;
    count += current }] over the entries of [src] in the order
    [entries]. *)
Fixpoint range_loop (entries : list (string * Z)) (dst : mapref) (count : Z)
  : M Z :=
  match entries with
  | [] => ret count
  | (code, current) :: rest =>
    map_store dst code current ;;;
    range_loop rest dst (int_add count current)
  end.

Section Snapshot.
Context `{Render}.

(** [func (mw *Stats) Data() *Data]. Go leaves the order of [range] over
    a map open; the loops run in the order of [map_to_list], and
    [range_loop_order] below shows that the order does not matter. *)
Definition Stats_Data (now : Time) : M Data :=
  let* s := get_mw in
  let* responseCounts := new_map in
  let* totalResponseCounts := new_map in
  let uptime := Time_Sub now (Uptime s) in
  let* src := read_map (ResponseCounts s) in
  let* count := range_loop (map_to_list src) responseCounts 0 in
  let* tsrc := read_map (TotalResponseCounts s) in
  let* totalCount := range_loop (map_to_list tsrc) totalResponseCounts 0 in
  let totalResponseTime := Time_Sub (TotalResponseTime s) Time_zero in
  let* averageResponseTime :=
    (if decide (0 < totalCount)
     then (let* avgNs := lift (int64_div totalResponseTime totalCount) in
           ret avgNs)
     else ret 0) in
  ret {| D_Pid := Pid s;
         UpTime := Duration_String uptime;
         UpTimeSec := Duration_Seconds uptime;
         Time_ := Time_String now;
         TimeUnix := Time_Unix now;
         StatusCodeCount := responseCounts;
         TotalStatusCodeCount := totalResponseCounts;
         Count := count;
         TotalCount := totalCount;
         D_TotalResponseTime := Duration_String totalResponseTime;
         TotalResponseTimeSec := Duration_Seconds totalResponseTime;
         AverageResponseTime := Duration_String averageResponseTime;
         AverageResponseTimeSec := Duration_Seconds averageResponseTime |}.

End Snapshot.

(** ** Runs of the program

    The calls that reach the recorder, in the order in which the mutex
    lets them in. [CallSetStatusCode] is what a downstream handler does to
    its request context between [Begin] and [End]. *)
Inductive call :=
  | CallReset
  | CallBegin (now : Time) (ctx : nat)
  | CallSetStatusCode (ctx : nat) (status : Z)
  | CallEndWithStatus (now start : Time) (status : Z)
  | CallEnd (now start : Time) (ctx : nat)
  | CallData (now : Time).

Definition handler_SetStatusCode (ctx : nat) (status : Z) : M unit :=
  let* r := load_ctx ctx in
  store_ctx ctx (SetStatusCode status r).

Section Runs.
Context `{Render}.

Definition exec (c : call) : M unit :=
  match c with
  | CallReset => ResetResponseCounts
  | CallBegin now ctx => Begin now ctx ;;; ret tt
  | CallSetStatusCode ctx status => handler_SetStatusCode ctx status
  | CallEndWithStatus now start status => EndWithStatus now start status
  | CallEnd now start ctx => End now start ctx
  | CallData now => Stats_Data now ;;; ret tt
  end.

Fixpoint run (cs : list call) (w : World) : option World :=
  match cs with
  | [] => Some w
  | c :: rest =>
    match exec c w with
    | Some (_, w') => run rest w'
    | None => None
    end
  end.

(** The status code a call records in the world [w], if it completes a
    request. *)
Definition recorded (w : World) (c : call) : list Z :=
  match c with
  | CallEndWithStatus _ _ status => [status]
  | CallEnd _ _ ctx =>
    match ctxs w !! ctx with
    | Some r => [Response_StatusCode r]
    | None => []
    end
  | _ => []
  end.

(** The status codes c1..cN of the requests that a run completes. *)
Fixpoint codes (cs : list call) (w : World) : list Z :=
  match cs with
  | [] => []
  | c :: rest =>
    recorded w c ++
    match exec c w with
    | Some (_, w') => codes rest w'
    | None => []
    end
  end.

End Runs.

(** The latency a call adds: [end.Sub(start)]. *)
Definition elapsed (c : call) : Duration :=
  match c with
  | CallEndWithStatus now start _ => Time_Sub now start
  | CallEnd now start _ => Time_Sub now start
  | _ => 0
  end.

(** The request context a call dereferences is allocated. *)
Definition call_ok (n : nat) (c : call) : Prop :=
  match c with
  | CallBegin _ ctx | CallSetStatusCode ctx _ | CallEnd _ _ ctx => (ctx < n)%nat
  | _ => True
  end.

(** A renderer to run the model with: durations in nanoseconds, seconds as
    a pair of whole seconds and nanoseconds. *)
Definition plain_render : Render :=
  {| float64 := Z * Z;
     Duration_String := fun d => pretty d +:+ "ns";
     Duration_Seconds := fun d => (d ÷ 1000000000, Z.rem d 1000000000);
     Time_String := fun t => pretty t |}.

(** A request context as the server hands it over, status not yet set. *)
Definition req_ctx0 : RequestCtx := {| Response_statusCode := 0 |}.

(** Three requests through [Begin] and [End]: two whose handler leaves the
    status alone, one whose handler sets 404. *)
Definition scenario1 : list call :=
  [ CallBegin 1000 0%nat; CallEnd 1500 1000 0%nat;
    CallBegin 2000 0%nat; CallEnd 2700 2000 0%nat;
    CallBegin 3000 0%nat; CallSetStatusCode 0%nat 404; CallEnd 3300 3000 0%nat ].
(** Then the reset of the next second and a request that ends with 500. *)
Definition scenario2 : list call :=
  scenario1 ++
  [ CallReset; CallBegin 5000 0%nat; CallSetStatusCode 0%nat 500;
    CallEnd 5100 5000 0%nat ].

(** The worlds that the two scenarios end in. *)
Definition after_scenario1 `{Render} : World :=
  Eval vm_compute in
    default (New 0 42 [] []) (run scenario1 (New 0 42 [] [req_ctx0])).
Definition after_scenario2 `{Render} : World :=
  Eval vm_compute in
    default (New 0 42 [] []) (run scenario2 (New 0 42 [] [req_ctx0])).

(** ** What the properties speak about *)

(** The counts that recording the status codes [cs] one after the other
    leaves in an empty map. *)
Definition tally (cs : list Z) : gmap string Z :=
  foldl (fun m c => incr (Sprintf_d c) m) ∅ cs.

(** How many of the status codes [cs] are rendered as the key [k]. *)
Definition occ (k : string) (cs : list Z) : nat :=
  length (filter (fun c => Sprintf_d c = k) cs).

(** The sum of a list of integers, without wrap-around. *)
Definition sumZ (l : list Z) : Z := foldr Z.add 0 l.

(** What the loop of [Data] adds up over a map object. *)
Definition sum_values (m : gmap string Z) : Z :=
  foldl int_add 0 (map_to_list m).*2.

(** [TotalResponseTime] measured from the zero Time, as [Data] does. *)
Definition total_duration (w : World) : Duration :=
  Time_Sub (TotalResponseTime (mw w)) Time_zero.

(** The recorder's two maps are distinct, allocated objects. *)
Definition counters_ok (w : World) : Prop :=
  exists li lt mi mt,
    ResponseCounts (mw w) = Some li /\ TotalResponseCounts (mw w) = Some lt /\
    li <> lt /\ maps w !! li = Some mi /\ maps w !! lt = Some mt.

(** A map reference is nil or points into the heap. *)
Definition ref_ok (h : list (gmap string Z)) (r : mapref) : Prop :=
  match r with
  | None => True
  | Some l => (l < length h)%nat
  end.

(** One step of the copy loop on the destination object. *)
Definition store_entry (m : gmap string Z) (p : string * Z) : gmap string Z :=
  <[p.1 := p.2]> m.

(** The heap after [Data]: two new objects, then the two copies. *)
Definition snapshot_maps (w : World) : list (gmap string Z) :=
  let l1 := length (maps w) in
  let h0 := (maps w ++ [∅]) ++ [∅] in
  let h1 := <[l1 := deref h0 (ResponseCounts (mw w))]> h0 in
  <[S l1 := deref h1 (TotalResponseCounts (mw w))]> h1.

Definition snapshot_total (w : World) : Z :=
  let l1 := length (maps w) in
  let h0 := (maps w ++ [∅]) ++ [∅] in
  let h1 := <[l1 := deref h0 (ResponseCounts (mw w))]> h0 in
  sum_values (deref h1 (TotalResponseCounts (mw w))).

Definition snapshot_average (w : World) : Duration :=
  if decide (0 < snapshot_total w)
  then total_duration w ÷ snapshot_total w
  else 0.

(** What a run maintains: the interval map holds the counts of the status
    codes [since] the last reset, the total map those of [all] status
    codes recorded so far. *)
Definition recording (w : World) (all since : list Z) : Prop :=
  exists li lt before,
    ResponseCounts (mw w) = Some li /\ TotalResponseCounts (mw w) = Some lt /\
    li <> lt /\
    maps w !! li = Some (tally since) /\ maps w !! lt = Some (tally all) /\
    all = before ++ since.

(** The value of a decimal digit: the characters with the codes 48 ("0")
    to 57 ("9"). *)
Definition digit_value (a : ascii) : option N :=
  let code := N_of_ascii a in
  if decide (48 <= code < 58)%N then Some (code - 48)%N else None.

(** The number that the decimal digits [s] denote, after the digits
    already read as [acc]. *)
Fixpoint digits_value (s : string) (acc : N) : option N :=
  match s with
  | EmptyString => Some acc
  | String a s' =>
    match digit_value a with
    | Some d => digits_value s' (10 * acc + d)%N
    | None => None
    end
  end.

(** Reading a decimal numeral with an optional minus sign. *)
Definition decimal_value (s : string) : option Z :=
  match digits_value s 0 with
  | Some n => Some (Z.of_N n)
  | None =>
    match s with
    | String "-" s' => (fun n => - Z.of_N n) <$> digits_value s' 0
    | _ => None
    end
  end.

(** ** Bookkeeping of runs *)

(** The status codes recorded since the last reset, after the call [c] in
    the world [w]. *)
Definition since_step (c : call) (w : World) (since : list Z) : list Z :=
  match c with
  | CallReset => []
  | _ => since ++ recorded w c
  end.

(** The status codes of the requests that a run completes after its last
    [ResetResponseCounts]; [since] are those before the run. *)
Fixpoint codes_since `{Render} (cs : list call) (w : World) (since : list Z)
  : list Z :=
  match cs with
  | [] => since
  | c :: rest =>
    match exec c w with
    | Some (_, w') => codes_since rest w' (since_step c w since)
    | None => since
    end
  end.

(** What a call does to the request contexts. *)
Definition ctxs_step (c : call) (cs : list RequestCtx) : list RequestCtx :=
  match c with
  | CallBegin _ ctx => alter (SetStatusCode 200) ctx cs
  | CallSetStatusCode ctx status => alter (SetStatusCode status) ctx cs
  | _ => cs
  end.

(** A map object of the heap that is not one of the recorder's two maps:
    a snapshot's map, or an interval map that a reset has dropped. *)
Definition foreign (w : World) (l : nat) : Prop :=
  (l < length (maps w))%nat /\
  ResponseCounts (mw w) <> Some l /\
  TotalResponseCounts (mw w) <> Some l.

Definition is_snapshot (c : call) : bool :=
  match c with
  | CallData _ => true
  | _ => false
  end.

(** A run without its snapshots. *)
Definition without_snapshots (cs : list call) : list call :=
  filter (fun c => is_snapshot c = false) cs.

(** A request reported directly: the reading of the clock at its end, its
    start and its status. *)
Definition end_call (r : Time * Time * Z) : call :=
  CallEndWithStatus r.1.1 r.1.2 r.2.

(** The zero value [Stats{}]: a recorder that [New] did not make. *)
Definition zero_Stats : Stats :=
  {| Uptime := Time_zero;
     Pid := 0;
     ResponseCounts := None;
     TotalResponseCounts := None;
     TotalResponseTime := Time_zero |}.

(** ** Machine arithmetic *)

Section Arith.

Lemma wrap_in_int z : in_int z -> wrap z = z.
Proof.
  unfold in_int, int_min, int_max, wrap. intros Hz.
  rewrite Z.mod_small; lia.
Qed.

Lemma wrap_range z : in_int (wrap z).
Proof.
  unfold in_int, int_min, int_max, wrap.
  pose proof (Z.mod_pos_bound (z + 2 ^ 63) (2 ^ 64)). lia.
Qed.

Lemma wrap_add_l a b : wrap (wrap a + b) = wrap (a + b).
Proof.
  unfold wrap. f_equal.
  replace ((a + 2 ^ 63) mod 2 ^ 64 - 2 ^ 63 + b + 2 ^ 63)
    with ((a + 2 ^ 63) mod 2 ^ 64 + b) by lia.
  rewrite Zplus_mod_idemp_l. f_equal. lia.
Qed.

Lemma wrap_add_r a b : wrap (a + wrap b) = wrap (a + b).
Proof. rewrite (Z.add_comm a (wrap b)), wrap_add_l. f_equal. lia. Qed.

Lemma of_nat_in_int (n : nat) : Z.of_nat n <= int_max -> in_int (Z.of_nat n).
Proof. unfold in_int, int_min, int_max. lia. Qed.

Lemma saturate_range d : minDuration <= saturate d <= maxDuration.
Proof.
  unfold saturate, minDuration, maxDuration. repeat case_decide; lia.
Qed.

Lemma saturate_id d : minDuration <= d <= maxDuration -> saturate d = d.
Proof. unfold saturate. intros Hd. repeat case_decide; lia. Qed.


(** With a positive divisor the quotient of an [int64] is an [int64]:
    the division of [Data] does not overflow. *)
Lemma quot_in_int d c : in_int d -> 0 < c -> in_int (d ÷ c).
Proof.
  unfold in_int, int_min, int_max. intros Hd Hc.
  destruct (Z.le_gt_cases 0 d) as [Hpos|Hneg].
  - pose proof (Z.quot_pos d c Hpos Hc).
    pose proof (Z.quot_le_upper_bound d c d Hc). nia.
  - assert (Hq : d ÷ c = - ((- d) ÷ c)).
    { rewrite Z.quot_opp_l by lia. lia. }
    pose proof (Z.quot_pos (- d) c ltac:(lia) Hc).
    pose proof (Z.quot_le_upper_bound (- d) c (- d) Hc). nia.
Qed.


Lemma sumZ_nonneg l : Forall (fun x => 0 <= x) l -> 0 <= sumZ l.
Proof. induction 1; simpl; lia. Qed.

Lemma foldl_int_add c l : foldl int_add (wrap c) l = wrap (c + sumZ l).
Proof.
  revert c. induction l as [|x l IH]; intros c; simpl.
  - f_equal. lia.
  - unfold int_add at 2. rewrite wrap_add_l, IH. f_equal. lia.
Qed.

End Arith.

(** ** Counters in a map object *)

Section Counters.
Implicit Types (m : gmap string Z) (k : string) (cs : list Z).

Lemma sumZ_perm (l1 l2 : list Z) : l1 ≡ₚ l2 -> sumZ l1 = sumZ l2.
Proof. induction 1; simpl; lia. Qed.

Lemma sum_values_wrap m : sum_values m = wrap (sumZ (map_to_list m).*2).
Proof.
  unfold sum_values. change 0 with (wrap 0) at 1.
  rewrite foldl_int_add. f_equal.
Qed.

Lemma sum_values_insert m k v :
  m !! k = None -> sum_values (<[k := v]> m) = int_add (sum_values m) v.
Proof.
  intros Hk. rewrite !sum_values_wrap. unfold int_add.
  rewrite (sumZ_perm _ (v :: (map_to_list m).*2)).
  - simpl. rewrite wrap_add_l. f_equal. lia.
  - rewrite map_to_list_insert by done. reflexivity.
Qed.

Lemma sum_values_incr m k : sum_values (incr k m) = int_add (sum_values m) 1.
Proof.
  unfold incr, index. destruct (m !! k) as [v|] eqn:Hk; simpl.
  - rewrite <- (insert_delete_eq m k (int_add v 1)).
    rewrite sum_values_insert by apply lookup_delete_eq.
    rewrite <- (insert_id m k v) at 2 by done.
    rewrite <- (insert_delete_eq m k v).
    rewrite sum_values_insert by apply lookup_delete_eq.
    unfold int_add. rewrite wrap_add_r, !wrap_add_l. f_equal. lia.
  - rewrite sum_values_insert by done. reflexivity.
Qed.

Lemma tally_snoc cs c : tally (cs ++ [c]) = incr (Sprintf_d c) (tally cs).
Proof. unfold tally. rewrite foldl_app. reflexivity. Qed.

Lemma sum_values_tally cs : sum_values (tally cs) = wrap (Z.of_nat (length cs)).
Proof.
  induction cs as [|c cs IH] using rev_ind.
  - reflexivity.
  - rewrite tally_snoc, sum_values_incr, IH, length_app. simpl.
    unfold int_add. rewrite wrap_add_l. f_equal. lia.
Qed.

Lemma occ_snoc k cs c :
  occ k (cs ++ [c]) =
  (occ k cs + if decide (Sprintf_d c = k) then 1 else 0)%nat.
Proof.
  unfold occ. rewrite filter_app, length_app. f_equal.
  rewrite filter_cons, filter_nil. case_decide; reflexivity.
Qed.

Lemma tally_lookup cs k :
  tally cs !! k =
  if decide (occ k cs = 0%nat) then None
  else Some (wrap (Z.of_nat (occ k cs))).
Proof.
  induction cs as [|c cs IH] using rev_ind.
  - reflexivity.
  - rewrite tally_snoc, occ_snoc. unfold incr, index.
    destruct (decide (Sprintf_d c = k)) as [->|Hne].
    + rewrite lookup_insert_eq, IH.
      destruct (decide (occ k cs = 0%nat)) as [Hz|Hz]; simpl.
      * rewrite Hz. reflexivity.
      * rewrite decide_False by lia. f_equal.
        unfold int_add. rewrite wrap_add_l. f_equal. lia.
    + rewrite lookup_insert_ne, IH by done.
      rewrite Nat.add_0_r. reflexivity.
Qed.

Lemma tally_index cs k : index (tally cs) k = wrap (Z.of_nat (occ k cs)).
Proof.
  unfold index. rewrite tally_lookup.
  case_decide as Hz; simpl; [rewrite Hz|]; reflexivity.
Qed.

(** Distinct status codes have distinct keys. *)
Lemma Sprintf_d_inj a b : Sprintf_d a = Sprintf_d b -> a = b.
Proof. unfold Sprintf_d. apply pretty_Z_inj. Qed.

Lemma occ_Sprintf_d c cs :
  occ (Sprintf_d c) cs = length (filter (fun x => x = c) cs).
Proof.
  unfold occ. induction cs as [|x cs IH]; [reflexivity|].
  rewrite !filter_cons.
  destruct (decide (x = c)) as [->|Hne].
  - rewrite decide_True by done. simpl. congruence.
  - rewrite decide_False; [done|]. intros Heq. by apply Sprintf_d_inj in Heq.
Qed.

Lemma occ_le_length k cs : (occ k cs <= length cs)%nat.
Proof. unfold occ. apply length_filter. Qed.

Lemma occ_app k cs1 cs2 : occ k (cs1 ++ cs2) = (occ k cs1 + occ k cs2)%nat.
Proof. unfold occ. rewrite filter_app, length_app. reflexivity. Qed.

End Counters.

(** ** The copy loop of [Data] *)

Section Loop.
Implicit Types (m : gmap string Z) (entries : list (string * Z)).

Lemma world_eta w : mkWorld (mw w) (maps w) (ctxs w) = w.
Proof. destruct w; reflexivity. Qed.

Lemma range_loop_spec entries l m0 count w :
  maps w !! l = Some m0 ->
  range_loop entries (Some l) count w =
  Some (foldl int_add count entries.*2,
        mkWorld (mw w) (<[l := foldl store_entry m0 entries]> (maps w)) (ctxs w)).
Proof.
  revert m0 count w.
  induction entries as [|[code current] rest IH]; intros m0 count w Hl.
  - simpl. unfold ret. rewrite list_insert_id by done.
    rewrite world_eta. reflexivity.
  - simpl. unfold bind, map_store. rewrite Hl.
    rewrite (IH (<[code := current]> m0)); simpl.
    + rewrite list_insert_insert_eq. reflexivity.
    + apply list_lookup_insert_eq. by eapply lookup_lt_Some.
Qed.

Lemma foldl_store_entry m0 entries :
  foldl store_entry m0 entries = list_to_map (reverse entries) ∪ m0.
Proof.
  revert m0. induction entries as [|[k v] rest IH]; intros m0; simpl.
  - rewrite (left_id_L ∅ (∪)). reflexivity.
  - rewrite IH, reverse_cons, list_to_map_app. simpl.
    unfold store_entry at 1. simpl.
    rewrite <- (assoc_L (∪)). f_equal.
    rewrite insert_empty, <- insert_union_singleton_l. reflexivity.
Qed.

Lemma copy_entries m entries :
  entries ≡ₚ map_to_list m -> foldl store_entry ∅ entries = m.
Proof.
  intros Hp. rewrite foldl_store_entry, (right_id_L ∅ (∪)).
  rewrite <- (list_to_map_to_list m). apply list_to_map_proper.
  - rewrite reverse_Permutation, Hp. apply NoDup_fst_map_to_list.
  - rewrite reverse_Permutation. exact Hp.
Qed.

Lemma sum_entries m entries :
  entries ≡ₚ map_to_list m -> foldl int_add 0 entries.*2 = sum_values m.
Proof.
  intros Hp. rewrite sum_values_wrap. change 0 with (wrap 0) at 1.
  rewrite foldl_int_add. f_equal. simpl. apply sumZ_perm. by rewrite Hp.
Qed.

(** Whatever order [range] picks, the loop leaves a copy of the source in
    the (empty) destination and returns the sum of its values. *)
Lemma range_loop_order m entries l w :
  entries ≡ₚ map_to_list m ->
  maps w !! l = Some ∅ ->
  range_loop entries (Some l) 0 w =
  Some (sum_values m, mkWorld (mw w) (<[l := m]> (maps w)) (ctxs w)).
Proof.
  intros Hp Hl. rewrite (range_loop_spec _ _ ∅) by done.
  rewrite (copy_entries m), (sum_entries m) by done. reflexivity.
Qed.

End Loop.

(** ** What each operation does *)

Section Effects.
Context `{Render}.

Lemma ResetResponseCounts_spec w :
  ResetResponseCounts w =
  Some (tt, mkWorld {| Uptime := Uptime (mw w);
                       Pid := Pid (mw w);
                       ResponseCounts := Some (length (maps w));
                       TotalResponseCounts := TotalResponseCounts (mw w);
                       TotalResponseTime := TotalResponseTime (mw w) |}
                    (maps w ++ [∅]) (ctxs w)).
Proof. reflexivity. Qed.

Lemma EndWithStatus_spec now start status w li lt mi mt :
  ResponseCounts (mw w) = Some li ->
  TotalResponseCounts (mw w) = Some lt ->
  li <> lt ->
  maps w !! li = Some mi ->
  maps w !! lt = Some mt ->
  EndWithStatus now start status w =
  Some (tt, mkWorld {| Uptime := Uptime (mw w);
                       Pid := Pid (mw w);
                       ResponseCounts := Some li;
                       TotalResponseCounts := Some lt;
                       TotalResponseTime :=
                         Time_Add (TotalResponseTime (mw w))
                                  (Time_Sub now start) |}
                    (<[lt := incr (Sprintf_d status) mt]>
                       (<[li := incr (Sprintf_d status) mi]> (maps w)))
                    (ctxs w)).
Proof.
  intros Hi Ht Hne Hmi Hmt.
  unfold EndWithStatus, bind, get_mw, map_incr, set_mw. simpl.
  rewrite Hi, Hmi. simpl. rewrite Ht.
  rewrite list_lookup_insert_ne, Hmt by done. simpl.
  rewrite Hi, Ht. reflexivity.
Qed.

Lemma End_spec now start ctx w r :
  ctxs w !! ctx = Some r ->
  End now start ctx w = EndWithStatus now start (Response_StatusCode r) w.
Proof. intros Hc. unfold End, bind, load_ctx. rewrite Hc. reflexivity. Qed.

Lemma Begin_spec now ctx w r :
  ctxs w !! ctx = Some r ->
  Begin now ctx w =
  Some ((now, ctx),
        mkWorld (mw w) (maps w) (<[ctx := SetStatusCode 200 r]> (ctxs w))).
Proof.
  intros Hc. unfold Begin, bind, load_ctx, store_ctx, ret.
  rewrite Hc. simpl. rewrite Hc. reflexivity.
Qed.

Lemma handler_SetStatusCode_spec ctx status w r :
  ctxs w !! ctx = Some r ->
  handler_SetStatusCode ctx status w =
  Some (tt, mkWorld (mw w) (maps w) (<[ctx := SetStatusCode status r]> (ctxs w))).
Proof.
  intros Hc. unfold handler_SetStatusCode, bind, load_ctx, store_ctx.
  rewrite Hc. simpl. rewrite Hc. reflexivity.
Qed.

Lemma Stats_Data_spec now w :
  Stats_Data now w =
  Some ({| D_Pid := Pid (mw w);
           UpTime := Duration_String (Time_Sub now (Uptime (mw w)));
           UpTimeSec := Duration_Seconds (Time_Sub now (Uptime (mw w)));
           Time_ := Time_String now;
           TimeUnix := Time_Unix now;
           StatusCodeCount := Some (length (maps w));
           TotalStatusCodeCount := Some (S (length (maps w)));
           Count := sum_values (deref ((maps w ++ [∅]) ++ [∅])
                                      (ResponseCounts (mw w)));
           TotalCount := snapshot_total w;
           D_TotalResponseTime := Duration_String (total_duration w);
           TotalResponseTimeSec := Duration_Seconds (total_duration w);
           AverageResponseTime := Duration_String (snapshot_average w);
           AverageResponseTimeSec := Duration_Seconds (snapshot_average w) |},
        mkWorld (mw w) (snapshot_maps w) (ctxs w)).
Proof.
  unfold Stats_Data, bind, get_mw, new_map, alloc, read_map. simpl.
  set (h0 := (maps w ++ [∅]) ++ [∅]).
  set (src := deref h0 (ResponseCounts (mw w))).
  assert (Hl1 : h0 !! length (maps w) = Some (∅ : gmap string Z)).
  { unfold h0. rewrite lookup_app_l by (rewrite length_app; simpl; lia).
    rewrite lookup_app_r by lia. by rewrite Nat.sub_diag. }
  rewrite (range_loop_order src) by done. simpl.
  set (h1 := <[length (maps w) := src]> h0).
  set (tsrc := deref h1 (TotalResponseCounts (mw w))).
  assert (Hl2 : h1 !! S (length (maps w)) = Some (∅ : gmap string Z)).
  { unfold h1. rewrite list_lookup_insert_ne by lia.
    unfold h0. rewrite lookup_app_r by (rewrite length_app; simpl; lia).
    rewrite length_app. simpl.
    by replace (S (length (maps w)) - (length (maps w) + 1))%nat with 0%nat by lia. }
  replace (length (maps w ++ [∅])) with (S (length (maps w)))
    by (rewrite length_app; simpl; lia).
  rewrite (range_loop_order tsrc) by done. simpl.
  unfold snapshot_average, snapshot_total, snapshot_maps.
  fold h0. fold src. fold h1. fold tsrc.
  destruct (decide (0 < sum_values tsrc)) as [Hpos|Hnpos].
  - unfold lift, int64_div, ret. rewrite decide_False by lia.
    rewrite wrap_in_int; [reflexivity|].
    apply quot_in_int; [|done].
    unfold total_duration, Time_Sub, in_int, int_min, int_max.
    pose proof (saturate_range (TotalResponseTime (mw w) - Time_zero)) as Hs.
    unfold minDuration, maxDuration in Hs. exact Hs.
  - reflexivity.
Qed.

End Effects.

(** ** Heap lemmas *)

Section Heap.
Implicit Types (h : list (gmap string Z)) (r : mapref).

Lemma deref_app h h' r : ref_ok h r -> deref (h ++ h') r = deref h r.
Proof.
  destruct r as [l|]; simpl; [|done]. intros Hl.
  by rewrite lookup_app_l.
Qed.

(** A new empty object changes what no reference reads. *)
Lemma deref_app_empty h r : deref (h ++ [∅]) r = deref h r.
Proof.
  destruct r as [l|]; simpl; [|done].
  destruct (decide (l < length h)%nat) as [Hl|Hl].
  - by rewrite lookup_app_l.
  - rewrite lookup_app_r, (lookup_ge_None_2 h l) by lia.
    by destruct (l - length h)%nat as [|[|n]].
Qed.

Lemma deref_insert_ne h r l m : r <> Some l -> deref (<[l := m]> h) r = deref h r.
Proof.
  destruct r as [l'|]; simpl; [|done]. intros Hne.
  rewrite list_lookup_insert_ne; [done|]. congruence.
Qed.

Lemma ref_ok_fresh h r : ref_ok h r -> forall n, r <> Some (length h + n)%nat.
Proof. destruct r as [l|]; simpl; intros Hl n; [|done]. intros [= ->]. lia. Qed.

Lemma snapshot_maps_length w : length (snapshot_maps w) = S (S (length (maps w))).
Proof.
  unfold snapshot_maps. rewrite !length_insert, !length_app. simpl. lia.
Qed.

(** [Data] writes to its two new objects only. *)
Lemma snapshot_maps_old w l :
  (l < length (maps w))%nat -> snapshot_maps w !! l = maps w !! l.
Proof.
  intros Hl. unfold snapshot_maps.
  rewrite !list_lookup_insert_ne by lia.
  rewrite <- (assoc_L (++)). by rewrite lookup_app_l.
Qed.

Lemma snapshot_maps_take w : take (length (maps w)) (snapshot_maps w) = maps w.
Proof.
  unfold snapshot_maps.
  rewrite !take_insert_ge by lia.
  rewrite <- (assoc_L (++)). by rewrite take_app_length.
Qed.

End Heap.

(** ** Runs from a new recorder *)

Section Invariant.
Context `{Render}.

Lemma recording_counters_ok w all since : recording w all since -> counters_ok w.
Proof.
  intros (li & lt & before & ? & ? & ? & ? & ? & ?).
  exists li, lt, (tally since), (tally all). tauto.
Qed.

Lemma New_recording now pid h cs : recording (New now pid h cs) [] [].
Proof.
  exists (length h), (S (length h)), []. simpl.
  split; [done|]. split; [by rewrite length_app, Nat.add_1_r|].
  split; [lia|]. split; [|split; [|done]].
  - rewrite lookup_app_l by (rewrite length_app; simpl; lia).
    rewrite lookup_app_r by lia. by rewrite Nat.sub_diag.
  - rewrite lookup_app_r by (rewrite length_app; simpl; lia).
    rewrite length_app. simpl.
    by replace (S (length h) - (length h + 1))%nat with 0%nat by lia.
Qed.

Lemma EndWithStatus_recording now start status w all since :
  recording w all since ->
  exists w', EndWithStatus now start status w = Some (tt, w') /\
    recording w' (all ++ [status]) (since ++ [status]) /\
    ctxs w' = ctxs w.
Proof.
  intros (li & lt & before & Hi & Ht & Hne & Hmi & Hmt & Hall).
  eexists. split; [by eapply EndWithStatus_spec|]. split; [|done].
  exists li, lt, before. simpl.
  pose proof (lookup_lt_Some _ _ _ Hmi). pose proof (lookup_lt_Some _ _ _ Hmt).
  split; [done|]. split; [done|]. split; [done|].
  split; [|split].
  - rewrite list_lookup_insert_ne by done.
    rewrite list_lookup_insert_eq by done. by rewrite tally_snoc.
  - rewrite list_lookup_insert_eq by (by rewrite length_insert).
    by rewrite tally_snoc.
  - rewrite Hall. by rewrite (assoc_L (++)).
Qed.

(** One call keeps the invariant and appends what it records. *)
Lemma exec_recording c w all since :
  recording w all since ->
  call_ok (length (ctxs w)) c ->
  exists w' since', exec c w = Some (tt, w') /\
    recording w' (all ++ recorded w c) since' /\
    length (ctxs w') = length (ctxs w).
Proof.
  intros Hrec Hok.
  destruct c as [|now ctx|ctx status|now start status|now start ctx|now]; simpl in *.
  - (* ResetResponseCounts *)
    destruct Hrec as (li & lt & before & Hi & Ht & Hne & Hmi & Hmt & Hall).
    pose proof (lookup_lt_Some _ _ _ Hmt) as Hlt.
    eexists _, []. rewrite ResetResponseCounts_spec.
    split; [reflexivity|]. split; [|done].
    exists (length (maps w)), lt, all. simpl.
    split; [done|]. split; [done|]. split; [lia|].
    split; [|split].
    + rewrite lookup_app_r by lia. by rewrite Nat.sub_diag.
    + rewrite (right_id_L [] (++)). by rewrite lookup_app_l.
    + by rewrite !(right_id_L [] (++)).
  - (* Begin *)
    destruct (lookup_lt_is_Some_2 _ _ Hok) as [r Hr].
    eexists _, since. unfold bind. rewrite (Begin_spec _ _ _ _ Hr).
    split; [reflexivity|]. simpl. rewrite length_insert, (right_id_L [] (++)).
    split; [exact Hrec|done].
  - (* the handler sets the status code *)
    destruct (lookup_lt_is_Some_2 _ _ Hok) as [r Hr].
    eexists _, since. rewrite (handler_SetStatusCode_spec _ _ _ _ Hr).
    split; [reflexivity|]. simpl. rewrite length_insert, (right_id_L [] (++)).
    split; [exact Hrec|done].
  - (* EndWithStatus *)
    destruct (EndWithStatus_recording now start status _ _ _ Hrec)
      as (w' & Hrun & Hrec' & Hctx).
    exists w', (since ++ [status]). rewrite Hctx. done.
  - (* End *)
    destruct (lookup_lt_is_Some_2 _ _ Hok) as [r Hr].
    rewrite (End_spec _ _ _ _ _ Hr), Hr.
    destruct (EndWithStatus_recording now start (Response_StatusCode r) _ _ _ Hrec)
      as (w' & Hrun & Hrec' & Hctx).
    exists w', (since ++ [Response_StatusCode r]). rewrite Hctx. done.
  - (* Data *)
    destruct Hrec as (li & lt & before & Hi & Ht & Hne & Hmi & Hmt & Hall).
    eexists _, since. unfold bind. rewrite Stats_Data_spec.
    split; [reflexivity|]. simpl. split; [|done].
    exists li, lt, before. simpl. rewrite (right_id_L [] (++)).
    rewrite !snapshot_maps_old by (by eapply lookup_lt_Some). done.
Qed.

Lemma run_recording calls w all since :
  recording w all since ->
  Forall (call_ok (length (ctxs w))) calls ->
  exists w' since', run calls w = Some w' /\
    recording w' (all ++ codes calls w) since'.
Proof.
  revert w all since.
  induction calls as [|c calls IH]; intros w all since Hrec Hok; simpl.
  - exists w, since. by rewrite (right_id_L [] (++)).
  - apply Forall_cons in Hok as [Hc Hok].
    destruct (exec_recording c w all since Hrec Hc)
      as (w1 & since1 & Hexec & Hrec1 & Hlen).
    rewrite Hexec. rewrite <- Hlen in Hok.
    destruct (IH w1 _ _ Hrec1 Hok) as (w' & since' & Hrun & Hrec').
    exists w', since'. split; [done|]. by rewrite (assoc_L (++)).
Qed.

(** Every call moves [TotalResponseTime] by the latency it observes, and
    only the two [End] calls observe one. *)
Lemma exec_time c w u w' :
  exec c w = Some (u, w') ->
  TotalResponseTime (mw w') = Time_Add (TotalResponseTime (mw w)) (elapsed c).
Proof.
  assert (Hend : forall now start status,
    EndWithStatus now start status w = Some (u, w') ->
    TotalResponseTime (mw w') =
    Time_Add (TotalResponseTime (mw w)) (Time_Sub now start)).
  { intros now start status. unfold EndWithStatus, bind, get_mw, map_incr, set_mw.
    simpl. intros Hrun.
    repeat (case_match; simplify_eq/=); reflexivity. }
  unfold Time_Add in *.
  destruct c as [|now ctx|ctx status|now start status|now start ctx|now]; simpl.
  - rewrite ResetResponseCounts_spec. intros [= <- <-]. simpl. lia.
  - unfold bind, Begin, bind, load_ctx, store_ctx, ret. intros Hrun.
    repeat (case_match; simplify_eq/=); lia.
  - unfold handler_SetStatusCode, bind, load_ctx, store_ctx. intros Hrun.
    repeat (case_match; simplify_eq/=); lia.
  - apply Hend.
  - unfold End, bind, load_ctx.
    destruct (ctxs w !! ctx) as [r|]; [apply Hend|done].
  - unfold bind. rewrite Stats_Data_spec. intros [= <- <-]. simpl. lia.
Qed.

Lemma run_time calls w w' :
  run calls w = Some w' ->
  TotalResponseTime (mw w') =
  Time_Add (TotalResponseTime (mw w)) (sumZ (elapsed <$> calls)).
Proof.
  revert w. induction calls as [|c calls IH]; intros w.
  - simpl. intros [= ->]. unfold Time_Add. lia.
  - rewrite fmap_cons. simpl.
    destruct (exec c w) as [[u w1]|] eqn:Hexec; [|done].
    intros Hrun. rewrite (IH _ Hrun), (exec_time _ _ _ _ Hexec).
    unfold Time_Add. lia.
Qed.


(** What the theorems on single calls ask of the state holds in every
    state that a run reaches from [New]. *)
Lemma run_counters_ok now pid h cs calls :
  Forall (call_ok (length cs)) calls ->
  exists w, run calls (New now pid h cs) = Some w /\ counters_ok w /\
    ref_ok (maps w) (ResponseCounts (mw w)) /\
    ref_ok (maps w) (TotalResponseCounts (mw w)).
Proof.
  intros Hok.
  destruct (run_recording calls _ [] [] (New_recording now pid h cs) Hok)
    as (w & since & Hrun & Hrec).
  exists w. split; [exact Hrun|].
  split; [by eapply recording_counters_ok|].
  destruct Hrec as (li & lt & before & Hi & Ht & _ & Hmi & Hmt & _).
  rewrite Hi, Ht. simpl. split; by eapply lookup_lt_Some.
Qed.

(** [Handler] around a downstream handler that leaves the status code
    alone records the 200 that [Begin] has set. *)
Lemma Handler_default now0 now1 ctx w r :
  ctxs w !! ctx = Some r ->
  Handler (fun _ => ret tt) now0 now1 ctx w =
  EndWithStatus now1 now0 200
    (mkWorld (mw w) (maps w) (<[ctx := SetStatusCode 200 r]> (ctxs w))).
Proof.
  intros Hc. unfold Handler, bind at 1. rewrite (Begin_spec _ _ _ _ Hc).
  unfold bind at 1, ret.
  apply (End_spec now1 now0 ctx _ (SetStatusCode 200 r)). simpl.
  apply list_lookup_insert_eq. by eapply lookup_lt_Some.
Qed.

End Invariant.

(** ** What a snapshot contains *)

Section SnapshotFacts.
Context `{Render}.

Lemma snapshot_interval w :
  ref_ok (maps w) (ResponseCounts (mw w)) ->
  deref ((maps w ++ [∅]) ++ [∅]) (ResponseCounts (mw w)) =
  deref (maps w) (ResponseCounts (mw w)).
Proof. intros Hok. rewrite <- (assoc_L (++)). by apply deref_app. Qed.

Lemma snapshot_totals w :
  ref_ok (maps w) (TotalResponseCounts (mw w)) ->
  deref (<[length (maps w) :=
             deref ((maps w ++ [∅]) ++ [∅]) (ResponseCounts (mw w))]>
           ((maps w ++ [∅]) ++ [∅]))
        (TotalResponseCounts (mw w)) =
  deref (maps w) (TotalResponseCounts (mw w)).
Proof.
  intros Hok. rewrite deref_insert_ne.
  - rewrite <- (assoc_L (++)). by apply deref_app.
  - rewrite <- (Nat.add_0_r (length (maps w))). by apply ref_ok_fresh.
Qed.

Lemma snapshot_total_ok w :
  ref_ok (maps w) (TotalResponseCounts (mw w)) ->
  snapshot_total w = sum_values (deref (maps w) (TotalResponseCounts (mw w))).
Proof. intros Hok. unfold snapshot_total. by rewrite snapshot_totals. Qed.

Lemma snapshot_maps_interval w :
  ref_ok (maps w) (ResponseCounts (mw w)) ->
  snapshot_maps w !! length (maps w) =
  Some (deref (maps w) (ResponseCounts (mw w))).
Proof.
  intros Hok. unfold snapshot_maps.
  rewrite list_lookup_insert_ne by lia.
  rewrite list_lookup_insert_eq by (rewrite !length_app; simpl; lia).
  by rewrite snapshot_interval.
Qed.

Lemma snapshot_maps_totals w :
  ref_ok (maps w) (TotalResponseCounts (mw w)) ->
  snapshot_maps w !! S (length (maps w)) =
  Some (deref (maps w) (TotalResponseCounts (mw w))).
Proof.
  intros Hok. unfold snapshot_maps.
  rewrite list_lookup_insert_eq
    by (rewrite length_insert, !length_app; simpl; lia).
  by rewrite snapshot_totals.
Qed.

(** Without a bound on the number of requests: the counters are Go [int]s
    and the total of a snapshot is the number of recorded status codes
    modulo 2^64. *)
Lemma snapshot_total_wraps w all since :
  recording w all since ->
  snapshot_total w = wrap (Z.of_nat (length all)).
Proof.
  intros (li & lt & before & Hi & Ht & Hne & Hmi & Hmt & Hall).
  rewrite snapshot_total_ok.
  - rewrite Ht. simpl. rewrite Hmt. simpl. apply sum_values_tally.
  - rewrite Ht. simpl. by eapply lookup_lt_Some.
Qed.

Lemma recording_ref_ok w all since :
  recording w all since ->
  ref_ok (maps w) (ResponseCounts (mw w)) /\
  ref_ok (maps w) (TotalResponseCounts (mw w)) /\
  deref (maps w) (ResponseCounts (mw w)) = tally since /\
  deref (maps w) (TotalResponseCounts (mw w)) = tally all.
Proof.
  intros (li & lt & before & Hi & Ht & Hne & Hmi & Hmt & Hall).
  rewrite Hi, Ht. simpl. rewrite Hmi, Hmt. simpl.
  split; [by eapply lookup_lt_Some|]. split; [by eapply lookup_lt_Some|done].
Qed.

End SnapshotFacts.

(** ** Decimal rendering *)

Section Decimal.

Lemma digit_value_char (d : N) :
  (d < 10)%N -> digit_value (pretty_N_char d) = Some d.
Proof.
  intros Hd.
  assert (d = 0 \/ d = 1 \/ d = 2 \/ d = 3 \/ d = 4 \/ d = 5 \/ d = 6 \/
          d = 7 \/ d = 8 \/ d = 9)%N as Hcases by lia.
  repeat (destruct Hcases as [->|Hcases]; [reflexivity|]).
  by subst.
Qed.

Lemma pretty_N_go_value (x : N) (s : string) :
  exists p : N, forall acc : N,
    digits_value (pretty_N_go x s) acc = digits_value s (acc * p + x)%N.
Proof.
  revert s. induction (N.lt_wf_0 x) as [x _ IH]; intros s.
  destruct (decide (x = 0)%N) as [->|Hx].
  - exists 1%N. intros acc. rewrite pretty_N_go_0. f_equal. lia.
  - rewrite pretty_N_go_step by lia.
    destruct (IH (x `div` 10)%N ltac:(apply N.div_lt; lia)
                (String (pretty_N_char (x `mod` 10)) s)) as [p Hp].
    exists (10 * p)%N. intros acc. rewrite Hp. simpl.
    rewrite digit_value_char by (apply N.mod_lt; lia).
    f_equal. pose proof (N.div_mod x 10 ltac:(lia)). lia.
Qed.

Lemma pretty_N_value (x : N) : digits_value (pretty x) 0 = Some x.
Proof.
  unfold pretty, pretty_N. case_decide as Hx; [by subst|].
  destruct (pretty_N_go_value x "") as [p Hp]. rewrite Hp. simpl.
  f_equal.
Qed.

(** [Sprintf_d] writes its argument in base 10. *)
Lemma Sprintf_d_decimal (n : Z) : decimal_value (Sprintf_d n) = Some n.
Proof.
  unfold Sprintf_d. destruct n as [|p|p].
  - reflexivity.
  - change (pretty (Z.pos p)) with (pretty (N.pos p)).
    unfold decimal_value. rewrite pretty_N_value. reflexivity.
  - change (pretty (Z.neg p)) with (String "-" (pretty (N.pos p))).
    unfold decimal_value.
    change (digits_value (String "-" (pretty (N.pos p))) 0) with (@None N).
    cbv beta iota. rewrite pretty_N_value. reflexivity.
Qed.

End Decimal.

(** ** The properties of the specification *)

(** C1. From a new recorder, any run of calls that completes N requests with
    the status codes c1..cN (through [EndWithStatus], or through [End],
    which reads the code from the response), with resets, snapshots and
    handler activity in between, does not panic, and the snapshot taken
    after it reports [TotalCount] = N and, for every status code [c],
    [TotalStatusCodeCount[c]] = the number of i with ci = c. N is a value
    of Go's [int]. *)
Theorem snapshot_counts_completed_requests `{Render}
    (now : Time) (pid : Z) (h : list (gmap string Z)) (cs : list RequestCtx)
    (calls : list call) (now' : Time) :
  Forall (call_ok (length cs)) calls ->
  Z.of_nat (length (codes calls (New now pid h cs))) <= int_max ->
  exists w d w',
    run calls (New now pid h cs) = Some w /\
    Stats_Data now' w = Some (d, w') /\
    TotalCount d = Z.of_nat (length (codes calls (New now pid h cs))) /\
    forall c : Z,
      index (deref (maps w') (TotalStatusCodeCount d)) (Sprintf_d c) =
      Z.of_nat (length (filter (fun ci => ci = c)
                               (codes calls (New now pid h cs)))).
Proof.
  intros Hok HN.
  destruct (run_recording calls _ [] [] (New_recording now pid h cs) Hok)
    as (w & since & Hrun & Hrec).
  simpl in Hrec.
  destruct (recording_ref_ok _ _ _ Hrec) as (Hri & Hrt & Hdi & Hdt).
  eexists w, _, _. split; [exact Hrun|]. split; [apply Stats_Data_spec|].
  simpl. split.
  - rewrite snapshot_total_ok, Hdt, sum_values_tally by done.
    apply wrap_in_int, of_nat_in_int, HN.
  - intros c. rewrite snapshot_maps_totals by done. simpl.
    rewrite Hdt, tally_index, occ_Sprintf_d.
    apply wrap_in_int, of_nat_in_int.
    pose proof (length_filter (fun ci => ci = c)
                  (codes calls (New now pid h cs))). lia.
Qed.

Lemma snapshot_counts_completed_requests_witness :
  exists w d w',
    @run plain_render scenario2 (New 0 42 [] [req_ctx0]) = Some w /\
    @Stats_Data plain_render 6000 w = Some (d, w') /\
    TotalCount d =
      Z.of_nat (length (@codes plain_render scenario2 (New 0 42 [] [req_ctx0]))) /\
    forall c : Z,
      index (deref (maps w') (TotalStatusCodeCount d)) (Sprintf_d c) =
      Z.of_nat (length (filter (fun ci => ci = c)
                  (@codes plain_render scenario2 (New 0 42 [] [req_ctx0])))).
Proof.
  apply (@snapshot_counts_completed_requests plain_render 0 42 [] [req_ctx0]
           scenario2 6000).
  - repeat constructor.
  - vm_compute. discriminate.
Defined.

(** C2. [Data] never panics; with D the total response duration it reports
    and C its [TotalCount], the average it reports is D / C, the integer
    division of nanoseconds truncated towards zero, whenever C > 0, and
    the zero duration whenever C = 0: the division by zero is never
    reached. *)
Theorem snapshot_average_response_time `{Render} (now : Time) (w : World) :
  exists d w',
    Stats_Data now w = Some (d, w') /\
    D_TotalResponseTime d = Duration_String (total_duration w) /\
    TotalResponseTimeSec d = Duration_Seconds (total_duration w) /\
    (0 < TotalCount d ->
     int64_div (total_duration w) (TotalCount d) =
       Some (total_duration w ÷ TotalCount d) /\
     AverageResponseTime d =
       Duration_String (total_duration w ÷ TotalCount d) /\
     AverageResponseTimeSec d =
       Duration_Seconds (total_duration w ÷ TotalCount d)) /\
    (TotalCount d = 0 ->
     AverageResponseTime d = Duration_String 0 /\
     AverageResponseTimeSec d = Duration_Seconds 0).
Proof.
  eexists _, _. split; [apply Stats_Data_spec|]. simpl.
  unfold snapshot_average.
  split; [done|]. split; [done|]. split.
  - intros Hpos. rewrite decide_True by done.
    unfold int64_div. rewrite decide_False by lia.
    rewrite wrap_in_int; [done|].
    apply quot_in_int; [|done].
    pose proof (saturate_range (TotalResponseTime (mw w) - Time_zero)) as Hs.
    unfold total_duration, Time_Sub, in_int, int_min, int_max.
    unfold minDuration, maxDuration in Hs. exact Hs.
  - intros Hz. rewrite decide_False by lia. done.
Qed.

Lemma snapshot_average_response_time_witness :
  (exists d w',
     @Stats_Data plain_render 6000 (@after_scenario2 plain_render) =
       Some (d, w') /\
     TotalCount d = 4 /\
     @D_TotalResponseTime plain_render d = "1600ns" /\
     @AverageResponseTime plain_render d = "400ns") /\
  (exists d w',
     @Stats_Data plain_render 6000 (New 0 42 [] []) = Some (d, w') /\
     TotalCount d = 0 /\
     @AverageResponseTime plain_render d = "0ns").
Proof.
  split.
  - destruct (@snapshot_average_response_time plain_render 6000
                (@after_scenario2 plain_render))
      as (d & w' & HD & Htot & _ & Hpos & _).
    assert (Hc : TotalCount d = 4).
    { rewrite Stats_Data_spec in HD. injection HD as <- _. reflexivity. }
    exists d, w'. split; [exact HD|]. split; [exact Hc|].
    split; [rewrite Htot; reflexivity|].
    destruct Hpos as (_ & Havg & _); [rewrite Hc; reflexivity|].
    rewrite Havg, Hc. reflexivity.
  - destruct (@snapshot_average_response_time plain_render 6000
                (New 0 42 [] []))
      as (d & w' & HD & _ & _ & _ & Hzero).
    assert (Hc : TotalCount d = 0).
    { rewrite Stats_Data_spec in HD. injection HD as <- _. reflexivity. }
    exists d, w'. split; [exact HD|]. split; [exact Hc|].
    destruct (Hzero Hc) as [Havg _]. rewrite Havg. reflexivity.
Defined.

(** C3. From a new recorder, after every run of calls ([EndWithStatus] and
    [ResetResponseCounts] among them) every key present in the interval
    map has a count that the total map's count of that key is at least
    equal to. The number of completed requests is a value of Go's [int]. *)
Theorem interval_counts_le_total_counts `{Render}
    (now : Time) (pid : Z) (h : list (gmap string Z)) (cs : list RequestCtx)
    (calls : list call) :
  Forall (call_ok (length cs)) calls ->
  Z.of_nat (length (codes calls (New now pid h cs))) <= int_max ->
  exists w,
    run calls (New now pid h cs) = Some w /\
    forall (key : string) (n : Z),
      deref (maps w) (ResponseCounts (mw w)) !! key = Some n ->
      n <= index (deref (maps w) (TotalResponseCounts (mw w))) key.
Proof.
  intros Hok HN.
  destruct (run_recording calls _ [] [] (New_recording now pid h cs) Hok)
    as (w & since & Hrun & Hrec).
  simpl in Hrec. exists w. split; [exact Hrun|].
  destruct (recording_ref_ok _ _ _ Hrec) as (_ & _ & Hdi & Hdt).
  destruct Hrec as (_ & _ & before & _ & _ & _ & _ & _ & Hall).
  intros key n. rewrite Hdi, Hdt, tally_index, tally_lookup.
  case_decide; [done|]. intros [= <-].
  pose proof (occ_le_length key (codes calls (New now pid h cs))) as Hlen.
  assert (Hle : (occ key since <= occ key (codes calls (New now pid h cs)))%nat).
  { rewrite Hall, occ_app. lia. }
  rewrite !wrap_in_int by (apply of_nat_in_int; lia). lia.
Qed.

Lemma interval_counts_le_total_counts_witness :
  exists w,
    @run plain_render scenario2 (New 0 42 [] [req_ctx0]) = Some w /\
    forall (key : string) (n : Z),
      deref (maps w) (ResponseCounts (mw w)) !! key = Some n ->
      n <= index (deref (maps w) (TotalResponseCounts (mw w))) key.
Proof.
  apply (@interval_counts_le_total_counts plain_render 0 42 [] [req_ctx0]
           scenario2).
  - repeat constructor.
  - vm_compute. discriminate.
Defined.

(** C4. In every state, [ResetResponseCounts] succeeds, makes
    [ResponseCounts] a new, empty map object, and leaves
    [TotalResponseCounts], [TotalResponseTime], the other fields, every
    map object that existed and the request contexts as they were. *)
Theorem ResetResponseCounts_frame (w : World) :
  exists w' l,
    ResetResponseCounts w = Some (tt, w') /\
    ResponseCounts (mw w') = Some l /\
    maps w !! l = None /\
    maps w' !! l = Some ∅ /\
    deref (maps w') (ResponseCounts (mw w')) = ∅ /\
    maps w' = maps w ++ [∅] /\
    TotalResponseCounts (mw w') = TotalResponseCounts (mw w) /\
    deref (maps w') (TotalResponseCounts (mw w')) =
      deref (maps w) (TotalResponseCounts (mw w)) /\
    TotalResponseTime (mw w') = TotalResponseTime (mw w) /\
    Uptime (mw w') = Uptime (mw w) /\
    Pid (mw w') = Pid (mw w) /\
    ctxs w' = ctxs w.
Proof.
  eexists _, (length (maps w)). split; [apply ResetResponseCounts_spec|].
  simpl. split; [done|].
  split; [by apply lookup_ge_None_2|].
  assert (Hnew : (maps w ++ [∅]) !! length (maps w) = Some (∅ : gmap string Z)).
  { rewrite lookup_app_r by lia. by rewrite Nat.sub_diag. }
  rewrite Hnew. repeat split; try done.
  apply deref_app_empty.
Qed.

(** C5. When the response of the request context [ctx] holds the status
    [s], [End start ctx] is [EndWithStatus start s]: the same result, the
    same maps, the same total response time, in every state. *)
Theorem End_is_EndWithStatus
    (w : World) (now start : Time) (ctx : nat) (r : RequestCtx) (s : Z) :
  ctxs w !! ctx = Some r ->
  Response_StatusCode r = s ->
  End now start ctx w = EndWithStatus now start s w.
Proof. intros Hc <-. unfold End, bind, load_ctx. by rewrite Hc. Qed.

Lemma End_is_EndWithStatus_witness :
  End 1500 1000 0%nat (New 0 42 [] [{| Response_statusCode := 404 |}]) =
  EndWithStatus 1500 1000 404 (New 0 42 [] [{| Response_statusCode := 404 |}])
  /\ is_Some (End 1500 1000 0%nat (New 0 42 [] [{| Response_statusCode := 404 |}])).
Proof.
  split.
  - apply (End_is_EndWithStatus _ 1500 1000 0%nat {| Response_statusCode := 404 |} 404);
      reflexivity.
  - vm_compute. eexists. reflexivity.
Defined.



(** C7. The two scenarios: a new recorder and three requests with the
    statuses 200, 200 (the default that [Begin] sets) and 404; then a
    reset and a fourth request with status 500. *)
Theorem scenario_snapshots `{Render} (now : Time) :
  (exists w d w',
     run scenario1 (New 0 42 [] [req_ctx0]) = Some w /\
     Stats_Data now w = Some (d, w') /\
     Count d = 3 /\
     deref (maps w') (StatusCodeCount d) = {[ "200" := 2; "404" := 1 ]} /\
     TotalCount d = 3) /\
  (exists w d w',
     run scenario2 (New 0 42 [] [req_ctx0]) = Some w /\
     Stats_Data now w = Some (d, w') /\
     deref (maps w') (StatusCodeCount d) = {[ "500" := 1 ]} /\
     deref (maps w') (TotalStatusCodeCount d) =
       {[ "200" := 2; "404" := 1; "500" := 1 ]} /\
     TotalCount d = 4).
Proof.
  split.
  - exists after_scenario1. eexists _, _. split; [vm_compute; reflexivity|].
    split; [apply Stats_Data_spec|]. vm_compute. repeat split.
  - exists after_scenario2. eexists _, _. split; [vm_compute; reflexivity|].
    split; [apply Stats_Data_spec|]. vm_compute. repeat split.
Qed.

(** C8. For every allocated request context, [Begin] returns the time it
    read and the handle it was given, sets the status code of that
    context's response to 200 and touches nothing else: the recorder and
    its maps are as before. An [End] that follows with the status
    unchanged records 200. *)
Theorem Begin_effect (now : Time) (ctx : nat) (w : World) (r : RequestCtx) :
  ctxs w !! ctx = Some r ->
  exists w',
    Begin now ctx w = Some ((now, ctx), w') /\
    mw w' = mw w /\
    maps w' = maps w /\
    ctxs w' = <[ctx := SetStatusCode 200 r]> (ctxs w) /\
    (Response_StatusCode <$> ctxs w' !! ctx) = Some 200 /\
    forall now' : Time,
      End now' now ctx w' = EndWithStatus now' now 200 w'.
Proof.
  intros Hc. eexists. split; [by apply Begin_spec|]. simpl.
  assert (Hnew : <[ctx := SetStatusCode 200 r]> (ctxs w) !! ctx =
                 Some (SetStatusCode 200 r)).
  { apply list_lookup_insert_eq. by eapply lookup_lt_Some. }
  repeat split; try done.
  - by rewrite Hnew.
  - intros now'.
    exact (End_spec now' now ctx
             (mkWorld (mw w) (maps w) (<[ctx := SetStatusCode 200 r]> (ctxs w)))
             (SetStatusCode 200 r) Hnew).
Qed.

Lemma Begin_effect_witness :
  exists w',
    Begin 1000 0%nat (New 0 42 [] [req_ctx0]) = Some ((1000, 0%nat), w') /\
    mw w' = mw (New 0 42 [] [req_ctx0]) /\
    maps w' = maps (New 0 42 [] [req_ctx0]) /\
    ctxs w' = [{| Response_statusCode := 200 |}].
Proof.
  destruct (Begin_effect 1000 0%nat (New 0 42 [] [req_ctx0]) req_ctx0)
    as (w' & Hrun & Hmw & Hmaps & Hctxs & _).
  - reflexivity.
  - exists w'. repeat split; assumption.
Defined.

(** C9. On a recorder whose two maps are allocated (as [New] leaves them
    and every call keeps them), [EndWithStatus] succeeds for every integer
    [status]: in both maps it sets the key [Sprintf_d status], the decimal
    numeral of [status], to one more than its value, 0 when the key was
    absent, and leaves the other keys alone. *)
Theorem EndWithStatus_total (now start : Time) (status : Z) (w : World) :
  counters_ok w ->
  exists w',
    EndWithStatus now start status w = Some (tt, w') /\
    counters_ok w' /\
    decimal_value (Sprintf_d status) = Some status /\
    deref (maps w') (ResponseCounts (mw w')) =
      <[Sprintf_d status :=
          int_add (index (deref (maps w) (ResponseCounts (mw w)))
                         (Sprintf_d status)) 1]>
        (deref (maps w) (ResponseCounts (mw w))) /\
    deref (maps w') (TotalResponseCounts (mw w')) =
      <[Sprintf_d status :=
          int_add (index (deref (maps w) (TotalResponseCounts (mw w)))
                         (Sprintf_d status)) 1]>
        (deref (maps w) (TotalResponseCounts (mw w))) /\
    (deref (maps w) (ResponseCounts (mw w)) !! Sprintf_d status = None ->
     deref (maps w') (ResponseCounts (mw w')) !! Sprintf_d status = Some 1) /\
    (deref (maps w) (TotalResponseCounts (mw w)) !! Sprintf_d status = None ->
     deref (maps w') (TotalResponseCounts (mw w')) !! Sprintf_d status = Some 1).
Proof.
  intros (li & lt & mi & mt & Hi & Ht & Hne & Hmi & Hmt).
  pose proof (lookup_lt_Some _ _ _ Hmi) as Hli.
  pose proof (lookup_lt_Some _ _ _ Hmt) as Hlt.
  eexists. split; [by eapply EndWithStatus_spec|]. simpl.
  assert (Hi' : <[lt := incr (Sprintf_d status) mt]>
                  (<[li := incr (Sprintf_d status) mi]> (maps w)) !! li =
                Some (incr (Sprintf_d status) mi)).
  { rewrite list_lookup_insert_ne by done. by apply list_lookup_insert_eq. }
  assert (Ht' : <[lt := incr (Sprintf_d status) mt]>
                  (<[li := incr (Sprintf_d status) mi]> (maps w)) !! lt =
                Some (incr (Sprintf_d status) mt)).
  { apply list_lookup_insert_eq. by rewrite length_insert. }
  rewrite Hi, Ht, Hi', Ht'. simpl. rewrite Hmi, Hmt. simpl.
  split; [by exists li, lt, (incr (Sprintf_d status) mi),
                    (incr (Sprintf_d status) mt)|].
  split; [apply Sprintf_d_decimal|].
  split; [done|]. split; [done|].
  unfold incr, index.
  split; intros ->; by rewrite lookup_insert_eq.
Qed.

Lemma EndWithStatus_total_witness :
  exists w',
    EndWithStatus 1500 1000 (-7) (New 0 42 [] []) = Some (tt, w') /\
    deref (maps w') (ResponseCounts (mw w')) !! "-7" = Some 1 /\
    deref (maps w') (TotalResponseCounts (mw w')) !! "-7" = Some 1.
Proof.
  destruct (EndWithStatus_total 1500 1000 (-7) (New 0 42 [] []))
    as (w' & Hrun & _ & _ & _ & _ & Hi & Ht).
  - exists 0%nat, 1%nat, ∅, ∅. repeat split; (reflexivity || lia).
  - exists w'. split; [exact Hrun|].
    split; [apply Hi|apply Ht]; reflexivity.
Defined.

(** C10. [Data] leaves the recorder as it was: its fields, the map objects
    that existed and the request contexts. The two maps of the returned
    [Data] are new objects holding copies of the recorder's maps, so
    whatever is written to them afterwards, the recorder's maps read as
    before; and a second [Data] right after the first reports the same
    counts. The recorder's map references are nil or allocated. *)
Theorem Data_returns_copies `{Render} (now : Time) (w : World) :
  ref_ok (maps w) (ResponseCounts (mw w)) ->
  ref_ok (maps w) (TotalResponseCounts (mw w)) ->
  exists d w' l1 l2,
    Stats_Data now w = Some (d, w') /\
    mw w' = mw w /\
    ctxs w' = ctxs w /\
    take (length (maps w)) (maps w') = maps w /\
    deref (maps w') (ResponseCounts (mw w')) =
      deref (maps w) (ResponseCounts (mw w)) /\
    deref (maps w') (TotalResponseCounts (mw w')) =
      deref (maps w) (TotalResponseCounts (mw w)) /\
    StatusCodeCount d = Some l1 /\
    TotalStatusCodeCount d = Some l2 /\
    l1 <> l2 /\
    maps w !! l1 = None /\
    maps w !! l2 = None /\
    ResponseCounts (mw w) <> Some l1 /\
    ResponseCounts (mw w) <> Some l2 /\
    TotalResponseCounts (mw w) <> Some l1 /\
    TotalResponseCounts (mw w) <> Some l2 /\
    maps w' !! l1 = Some (deref (maps w) (ResponseCounts (mw w))) /\
    maps w' !! l2 = Some (deref (maps w) (TotalResponseCounts (mw w))) /\
    (forall m1 m2 : gmap string Z,
       deref (<[l2 := m2]> (<[l1 := m1]> (maps w'))) (ResponseCounts (mw w')) =
         deref (maps w) (ResponseCounts (mw w)) /\
       deref (<[l2 := m2]> (<[l1 := m1]> (maps w'))) (TotalResponseCounts (mw w')) =
         deref (maps w) (TotalResponseCounts (mw w))) /\
    (forall now2 : Time,
       exists d2 w2,
         Stats_Data now2 w' = Some (d2, w2) /\
         deref (maps w2) (StatusCodeCount d2) =
           deref (maps w') (StatusCodeCount d) /\
         deref (maps w2) (TotalStatusCodeCount d2) =
           deref (maps w') (TotalStatusCodeCount d) /\
         Count d2 = Count d /\
         TotalCount d2 = TotalCount d).
Proof.
  intros Hri Hrt.
  assert (Hold : forall r, ref_ok (maps w) r ->
            deref (snapshot_maps w) r = deref (maps w) r).
  { intros [l|] Hl; simpl; [|done]. by rewrite snapshot_maps_old. }
  eexists _, _, (length (maps w)), (S (length (maps w))).
  split; [apply Stats_Data_spec|]. simpl.
  split; [done|]. split; [done|].
  split; [apply snapshot_maps_take|].
  split; [by apply Hold|]. split; [by apply Hold|].
  split; [done|]. split; [done|]. split; [lia|].
  split; [by apply lookup_ge_None_2|].
  split; [apply lookup_ge_None_2; lia|].
  pose proof (ref_ok_fresh _ _ Hri 0) as Hi0.
  pose proof (ref_ok_fresh _ _ Hri 1) as Hi1.
  pose proof (ref_ok_fresh _ _ Hrt 0) as Ht0.
  pose proof (ref_ok_fresh _ _ Hrt 1) as Ht1.
  rewrite Nat.add_0_r in Hi0, Ht0. rewrite Nat.add_1_r in Hi1, Ht1.
  split; [done|]. split; [done|]. split; [done|]. split; [done|].
  split; [by apply snapshot_maps_interval|].
  split; [by apply snapshot_maps_totals|].
  split.
  - intros m1 m2. rewrite !deref_insert_ne by done. by rewrite !Hold.
  - intros now2.
    set (w' := mkWorld (mw w) (snapshot_maps w) (ctxs w)).
    assert (Hri' : ref_ok (maps w') (ResponseCounts (mw w'))).
    { simpl. destruct (ResponseCounts (mw w)); simpl in *; [|done].
      rewrite snapshot_maps_length. lia. }
    assert (Hrt' : ref_ok (maps w') (TotalResponseCounts (mw w'))).
    { simpl. destruct (TotalResponseCounts (mw w)); simpl in *; [|done].
      rewrite snapshot_maps_length. lia. }
    eexists _, _. split; [apply Stats_Data_spec|].
    cbn [StatusCodeCount TotalStatusCodeCount Count TotalCount maps deref].
    rewrite (snapshot_maps_interval w'), (snapshot_maps_totals w') by done.
    rewrite (snapshot_maps_interval w), (snapshot_maps_totals w) by done.
    rewrite (snapshot_interval w'), (snapshot_interval w) by done.
    rewrite (snapshot_total_ok w'), (snapshot_total_ok w) by done.
    subst w'. simpl. by rewrite !Hold.
Qed.

Lemma Data_returns_copies_witness :
  exists d w',
    @Stats_Data plain_render 6000 (@after_scenario2 plain_render) =
      Some (d, w') /\
    mw w' = mw (@after_scenario2 plain_render) /\
    StatusCodeCount d <> ResponseCounts (mw w') /\
    TotalStatusCodeCount d <> TotalResponseCounts (mw w').
Proof.
  destruct (@Data_returns_copies plain_render 6000 (@after_scenario2 plain_render))
    as (d & w' & l1 & l2 & HD & Hmw & _ & _ & _ & _ & Hl1 & Hl2 & _ & _ & _ &
        Hi1 & _ & _ & Ht2 & _).
  - simpl. lia.
  - simpl. lia.
  - exists d, w'. split; [exact HD|]. split; [exact Hmw|].
    rewrite Hl1, Hl2, Hmw. split; congruence.
Defined.

(** ** Steps of a run, in full *)

Section Steps.
Context `{Render}.

Lemma insert_alter_lookup {A} (f : A -> A) (l : list A) (i : nat) (x : A) :
  l !! i = Some x -> <[i := f x]> l = alter f i l.
Proof.
  revert i. induction l as [|y l IH]; intros [|i] Hl; simplify_eq/=; [done|].
  f_equal. by apply IH.
Qed.

Lemma ctxs_step_length c cs : length (ctxs_step c cs) = length cs.
Proof. destruct c; simpl; by rewrite ?length_alter. Qed.

(** One call from a state of a run: what it records, what it does to the
    request contexts, and what it leaves alone. *)
Lemma exec_step c w all since :
  recording w all since ->
  call_ok (length (ctxs w)) c ->
  exists w',
    exec c w = Some (tt, w') /\
    recording w' (all ++ recorded w c) (since_step c w since) /\
    ctxs w' = ctxs_step c (ctxs w) /\
    Uptime (mw w') = Uptime (mw w) /\
    Pid (mw w') = Pid (mw w) /\
    (length (maps w) <= length (maps w'))%nat /\
    forall l, foreign w l -> foreign w' l /\ maps w' !! l = maps w !! l.
Proof.
  intros Hrec Hok.
  destruct c as [|now ctx|ctx status|now start status|now start ctx|now];
    simpl in *.
  - (* ResetResponseCounts *)
    destruct Hrec as (li & lt & before & Hi & Ht & Hne & Hmi & Hmt & Hall).
    pose proof (lookup_lt_Some _ _ _ Hmt) as Hlt.
    eexists. rewrite ResetResponseCounts_spec. split; [reflexivity|]. simpl.
    split; [|split; [done|split; [done|split; [done|split]]]].
    + exists (length (maps w)), lt, all. simpl.
      split; [done|]. split; [done|]. split; [lia|].
      rewrite (right_id_L [] (++)). split; [|split].
      * rewrite lookup_app_r by lia. by rewrite Nat.sub_diag.
      * by rewrite lookup_app_l.
      * done.
    + rewrite length_app. lia.
    + intros l (Hl & Hli & Hlt'). unfold foreign. simpl.
      split; [|by rewrite lookup_app_l].
      split; [rewrite length_app; lia|]. split; [|done].
      intros Heq. injection Heq. lia.
  - (* Begin *)
    destruct (lookup_lt_is_Some_2 _ _ Hok) as [r Hr].
    eexists. unfold bind. rewrite (Begin_spec _ _ _ _ Hr).
    split; [reflexivity|]. simpl. rewrite !(right_id_L [] (++)).
    split; [exact Hrec|]. split; [by apply insert_alter_lookup|].
    split; [done|]. split; [done|]. split; [done|].
    intros l Hl. split; [exact Hl|done].
  - (* the handler sets the status code *)
    destruct (lookup_lt_is_Some_2 _ _ Hok) as [r Hr].
    eexists. rewrite (handler_SetStatusCode_spec _ _ _ _ Hr).
    split; [reflexivity|]. simpl. rewrite !(right_id_L [] (++)).
    split; [exact Hrec|]. split; [by apply insert_alter_lookup|].
    split; [done|]. split; [done|]. split; [done|].
    intros l Hl. split; [exact Hl|done].
  - (* EndWithStatus *)
    destruct (EndWithStatus_recording now start status _ _ _ Hrec)
      as (w' & Hrun & Hrec' & Hctx).
    exists w'. split; [done|]. split; [done|]. split; [done|].
    destruct Hrec as (li & lt & before & Hi & Ht & Hne & Hmi & Hmt & Hall).
    rewrite (EndWithStatus_spec _ _ _ _ _ _ _ _ Hi Ht Hne Hmi Hmt) in Hrun.
    injection Hrun as <-. simpl. rewrite !length_insert.
    split; [done|]. split; [done|]. split; [done|].
    intros l (Hl & Hli & Hlt). unfold foreign. simpl.
    rewrite !length_insert, Hi, Ht in *.
    rewrite !list_lookup_insert_ne by congruence. done.
  - (* End *)
    destruct (lookup_lt_is_Some_2 _ _ Hok) as [r Hr].
    rewrite (End_spec _ _ _ _ _ Hr), Hr.
    destruct (EndWithStatus_recording now start (Response_StatusCode r)
                _ _ _ Hrec) as (w' & Hrun & Hrec' & Hctx).
    exists w'. split; [done|]. split; [done|]. split; [done|].
    destruct Hrec as (li & lt & before & Hi & Ht & Hne & Hmi & Hmt & Hall).
    rewrite (EndWithStatus_spec _ _ _ _ _ _ _ _ Hi Ht Hne Hmi Hmt) in Hrun.
    injection Hrun as <-. simpl. rewrite !length_insert.
    split; [done|]. split; [done|]. split; [done|].
    intros l (Hl & Hli & Hlt). unfold foreign. simpl.
    rewrite !length_insert, Hi, Ht in *.
    rewrite !list_lookup_insert_ne by congruence. done.
  - (* Data *)
    destruct Hrec as (li & lt & before & Hi & Ht & Hne & Hmi & Hmt & Hall).
    eexists. unfold bind. rewrite Stats_Data_spec.
    split; [reflexivity|]. simpl. rewrite !(right_id_L [] (++)).
    split; [|split; [done|split; [done|split; [done|split]]]].
    + exists li, lt, before. simpl.
      rewrite !snapshot_maps_old by (by eapply lookup_lt_Some). done.
    + rewrite snapshot_maps_length. lia.
    + intros l (Hl & Hli & Hlt). unfold foreign. simpl.
      rewrite snapshot_maps_length, snapshot_maps_old by done.
      repeat split; try done. lia.
Qed.

Lemma run_steps calls w all since :
  recording w all since ->
  Forall (call_ok (length (ctxs w))) calls ->
  exists w',
    run calls w = Some w' /\
    recording w' (all ++ codes calls w) (codes_since calls w since) /\
    length (ctxs w') = length (ctxs w) /\
    Uptime (mw w') = Uptime (mw w) /\
    Pid (mw w') = Pid (mw w) /\
    (length (maps w) <= length (maps w'))%nat /\
    forall l, foreign w l -> foreign w' l /\ maps w' !! l = maps w !! l.
Proof.
  revert w all since.
  induction calls as [|c calls IH]; intros w all since Hrec Hok; simpl.
  - exists w. rewrite (right_id_L [] (++)).
    do 6 (split; [done|]). intros l Hl. done.
  - apply Forall_cons in Hok as [Hc Hok].
    destruct (exec_step c w all since Hrec Hc)
      as (w1 & Hexec & Hrec1 & Hctx & Hup & Hpid & Hlen & Hfor).
    rewrite Hexec.
    assert (Hlc : length (ctxs w1) = length (ctxs w))
      by (rewrite Hctx; apply ctxs_step_length).
    rewrite <- Hlc in Hok.
    destruct (IH w1 _ _ Hrec1 Hok)
      as (w' & Hrun & Hrec' & Hlc' & Hup' & Hpid' & Hlen' & Hfor').
    exists w'. split; [done|]. rewrite (assoc_L (++)).
    split; [done|]. split; [congruence|]. split; [congruence|].
    split; [congruence|]. split; [lia|].
    intros l Hl. destruct (Hfor l Hl) as [Hl1 Heq1].
    destruct (Hfor' l Hl1) as [Hl2 Heq2]. split; [done|]. congruence.
Qed.

Lemma codes_app calls1 calls2 w :
  codes (calls1 ++ calls2) w =
  codes calls1 w ++
  match run calls1 w with
  | Some w1 => codes calls2 w1
  | None => []
  end.
Proof.
  revert w. induction calls1 as [|c calls1 IH]; intros w; simpl; [done|].
  destruct (exec c w) as [[u w1]|].
  - by rewrite IH, (assoc_L (++)).
  - by rewrite !(right_id_L [] (++)).
Qed.


Lemma occ_pos_elem k cs :
  occ k cs <> 0%nat -> exists c, c ∈ cs /\ Sprintf_d c = k.
Proof.
  unfold occ. intros Hocc.
  destruct (filter (fun c => Sprintf_d c = k) cs) as [|c l] eqn:Hf; [done|].
  assert (Hc : c ∈ filter (fun c => Sprintf_d c = k) cs)
    by (rewrite Hf; apply list_elem_of_here).
  apply list_elem_of_filter in Hc as [Hk Hc]. by exists c.
Qed.

End Steps.

(** ** Snapshots of the states of a run *)

Section RunSnapshots.
Context `{Render}.

Lemma sum_values_empty : sum_values ∅ = 0.
Proof. unfold sum_values. by rewrite map_to_list_empty. Qed.

(** The snapshot of a state of a run, in terms of what the run has
    recorded. The counts are Go [int]s. *)
Lemma recording_snapshot now w all since :
  recording w all since ->
  exists d w',
    Stats_Data now w = Some (d, w') /\
    mw w' = mw w /\
    Count d = wrap (Z.of_nat (length since)) /\
    TotalCount d = wrap (Z.of_nat (length all)) /\
    deref (maps w') (StatusCodeCount d) = tally since /\
    deref (maps w') (TotalStatusCodeCount d) = tally all.
Proof.
  intros Hrec.
  destruct (recording_ref_ok _ _ _ Hrec) as (Hri & Hrt & Hdi & Hdt).
  eexists _, _. split; [apply Stats_Data_spec|]. simpl.
  split; [done|].
  rewrite snapshot_interval, Hdi, sum_values_tally by done.
  split; [done|].
  rewrite (snapshot_total_wraps _ _ _ Hrec). split; [done|].
  rewrite snapshot_maps_interval, snapshot_maps_totals by done.
  simpl. by rewrite Hdi, Hdt.
Qed.

Lemma recording_lengths w all since :
  recording w all since -> (length since <= length all)%nat.
Proof.
  intros (_ & _ & before & _ & _ & _ & _ & _ & ->).
  rewrite length_app. lia.
Qed.

Lemma recording_since_elem w all since c :
  recording w all since -> c ∈ since -> c ∈ all.
Proof.
  intros (_ & _ & before & _ & _ & _ & _ & _ & ->) Hc.
  apply elem_of_app. by right.
Qed.

Lemma recording_occ w all since k :
  recording w all since -> (occ k since <= occ k all)%nat.
Proof.
  intros (_ & _ & before & _ & _ & _ & _ & _ & ->).
  rewrite occ_app. lia.
Qed.

End RunSnapshots.

(** ** Further properties of the recorder *)

(** X1. [New] adds two empty map objects to the heap and touches nothing
    that existed; the snapshot of the new recorder reports no requests,
    empty maps, a zero total and a zero average response time, the pid it
    was made with and the time since it was made. *)
Theorem New_then_Data `{Render}
    (now : Time) (pid : Z) (h : list (gmap string Z)) (cs : list RequestCtx)
    (now' : Time) :
  maps (New now pid h cs) = h ++ [∅; ∅] /\
  ctxs (New now pid h cs) = cs /\
  exists d w',
    Stats_Data now' (New now pid h cs) = Some (d, w') /\
    Count d = 0 /\
    TotalCount d = 0 /\
    deref (maps w') (StatusCodeCount d) = ∅ /\
    deref (maps w') (TotalStatusCodeCount d) = ∅ /\
    D_TotalResponseTime d = Duration_String 0 /\
    AverageResponseTime d = Duration_String 0 /\
    AverageResponseTimeSec d = Duration_Seconds 0 /\
    D_Pid d = pid /\
    UpTime d = Duration_String (Time_Sub now' now).
Proof.
  split; [simpl; by rewrite <- (assoc_L (++))|]. split; [done|].
  pose proof (New_recording now pid h cs) as Hrec.
  destruct (recording_snapshot now' _ _ _ Hrec)
    as (d & w' & HD & _ & Hc & Ht & Hmi & Hmt).
  exists d, w'. split; [exact HD|].
  split; [exact Hc|]. split; [exact Ht|]. split; [exact Hmi|].
  split; [exact Hmt|].
  rewrite Stats_Data_spec in HD. injection HD as <- _. simpl.
  unfold snapshot_average.
  rewrite (snapshot_total_wraps _ _ _ Hrec). done.
Qed.

(** X2. A snapshot taken right after [ResetResponseCounts] reports a
    count of 0 and an empty interval map, and the same total count, total
    map and average as a snapshot taken right before the reset. *)
Theorem Reset_then_Data `{Render} (now : Time) (w : World) :
  ref_ok (maps w) (TotalResponseCounts (mw w)) ->
  exists d0 w0 w1 d w2,
    Stats_Data now w = Some (d0, w0) /\
    ResetResponseCounts w = Some (tt, w1) /\
    Stats_Data now w1 = Some (d, w2) /\
    Count d = 0 /\
    deref (maps w2) (StatusCodeCount d) = ∅ /\
    TotalCount d = TotalCount d0 /\
    deref (maps w2) (TotalStatusCodeCount d) =
      deref (maps w0) (TotalStatusCodeCount d0) /\
    D_TotalResponseTime d = D_TotalResponseTime d0 /\
    AverageResponseTime d = AverageResponseTime d0.
Proof.
  intros Hrt.
  set (w1 := mkWorld {| Uptime := Uptime (mw w);
                        Pid := Pid (mw w);
                        ResponseCounts := Some (length (maps w));
                        TotalResponseCounts := TotalResponseCounts (mw w);
                        TotalResponseTime := TotalResponseTime (mw w) |}
                     (maps w ++ [∅]) (ctxs w)).
  assert (Hri1 : ref_ok (maps w1) (ResponseCounts (mw w1))).
  { simpl. rewrite length_app. simpl. lia. }
  assert (Hrt1 : ref_ok (maps w1) (TotalResponseCounts (mw w1))).
  { simpl. destruct (TotalResponseCounts (mw w)); simpl in *; [|done].
    rewrite length_app. lia. }
  assert (Hdt : deref (maps w1) (TotalResponseCounts (mw w1)) =
                deref (maps w) (TotalResponseCounts (mw w)))
    by apply deref_app_empty.
  assert (Hdi : deref (maps w1) (ResponseCounts (mw w1)) = ∅).
  { simpl. rewrite lookup_app_r by lia. by rewrite Nat.sub_diag. }
  assert (Htot : snapshot_total w1 = snapshot_total w).
  { rewrite !snapshot_total_ok by done. by rewrite Hdt. }
  eexists _, _, w1, _, _.
  split; [apply Stats_Data_spec|]. split; [apply ResetResponseCounts_spec|].
  split; [apply Stats_Data_spec|].
  cbn [Count TotalCount StatusCodeCount TotalStatusCodeCount
       D_TotalResponseTime AverageResponseTime maps deref].
  rewrite (snapshot_interval w1), Hdi by done.
  split; [apply sum_values_empty|].
  rewrite (snapshot_maps_interval w1), (snapshot_maps_totals w1) by done.
  rewrite (snapshot_maps_totals w) by done.
  rewrite Hdi, Hdt. simpl.
  split; [done|]. split; [done|]. split; [done|]. split; [done|].
  unfold snapshot_average. by rewrite Htot.
Qed.

Lemma Reset_then_Data_witness :
  exists d w1 w2,
    ResetResponseCounts (@after_scenario1 plain_render) = Some (tt, w1) /\
    @Stats_Data plain_render 4000 w1 = Some (d, w2) /\
    Count d = 0 /\
    deref (maps w2) (StatusCodeCount d) = ∅ /\
    TotalCount d = 3.
Proof.
  destruct (@Reset_then_Data plain_render 4000 (@after_scenario1 plain_render))
    as (d0 & w0 & w1 & d & w2 & HD0 & HR & HD & Hc & Hm & Ht & _).
  - simpl. lia.
  - exists d, w1, w2. split; [exact HR|]. split; [exact HD|].
    split; [exact Hc|]. split; [exact Hm|].
    rewrite Ht. rewrite Stats_Data_spec in HD0. injection HD0 as <- _.
    reflexivity.
Defined.

(** X3. From a new recorder, the snapshot after a run reports as [Count]
    the number of requests completed since the last reset of the run, and
    as [StatusCodeCount[c]] how many of them had the status code [c]. That
    number is a value of Go's [int]. *)
Theorem interval_counts_since_reset `{Render}
    (now : Time) (pid : Z) (h : list (gmap string Z)) (cs : list RequestCtx)
    (calls : list call) (now' : Time) :
  Forall (call_ok (length cs)) calls ->
  Z.of_nat (length (codes_since calls (New now pid h cs) [])) <= int_max ->
  exists w d w',
    run calls (New now pid h cs) = Some w /\
    Stats_Data now' w = Some (d, w') /\
    Count d = Z.of_nat (length (codes_since calls (New now pid h cs) [])) /\
    forall c : Z,
      index (deref (maps w') (StatusCodeCount d)) (Sprintf_d c) =
      Z.of_nat (length (filter (fun ci => ci = c)
                               (codes_since calls (New now pid h cs) []))).
Proof.
  intros Hok HN.
  destruct (run_steps calls _ [] [] (New_recording now pid h cs) Hok)
    as (w & Hrun & Hrec & _).
  destruct (recording_snapshot now' _ _ _ Hrec)
    as (d & w' & HD & _ & Hc & _ & Hmi & _).
  exists w, d, w'. split; [exact Hrun|]. split; [exact HD|].
  split.
  - rewrite Hc. apply wrap_in_int, of_nat_in_int, HN.
  - intros c. rewrite Hmi, tally_index, occ_Sprintf_d.
    apply wrap_in_int, of_nat_in_int.
    pose proof (length_filter (fun ci => ci = c)
                  (codes_since calls (New now pid h cs) [])). lia.
Qed.

Lemma interval_counts_since_reset_witness :
  exists w d w',
    @run plain_render scenario2 (New 0 42 [] [req_ctx0]) = Some w /\
    @Stats_Data plain_render 6000 w = Some (d, w') /\
    Count d = 1 /\
    index (deref (maps w') (StatusCodeCount d)) (Sprintf_d 500) = 1 /\
    index (deref (maps w') (StatusCodeCount d)) (Sprintf_d 200) = 0.
Proof.
  destruct (@interval_counts_since_reset plain_render 0 42 [] [req_ctx0]
              scenario2 6000) as (w & d & w' & Hrun & HD & Hc & Hi).
  - repeat constructor.
  - vm_compute. discriminate.
  - exists w, d, w'. split; [exact Hrun|]. split; [exact HD|].
    split; [rewrite Hc; reflexivity|].
    split; rewrite Hi; reflexivity.
Defined.

(** X4. From a new recorder, every snapshot has 0 <= [Count] <=
    [TotalCount]. The number of completed requests is a value of Go's
    [int]. *)
Theorem Count_le_TotalCount `{Render}
    (now : Time) (pid : Z) (h : list (gmap string Z)) (cs : list RequestCtx)
    (calls : list call) (now' : Time) :
  Forall (call_ok (length cs)) calls ->
  Z.of_nat (length (codes calls (New now pid h cs))) <= int_max ->
  exists w d w',
    run calls (New now pid h cs) = Some w /\
    Stats_Data now' w = Some (d, w') /\
    0 <= Count d <= TotalCount d.
Proof.
  intros Hok HN.
  destruct (run_steps calls _ [] [] (New_recording now pid h cs) Hok)
    as (w & Hrun & Hrec & _).
  simpl in Hrec.
  destruct (recording_snapshot now' _ _ _ Hrec)
    as (d & w' & HD & _ & Hc & Ht & _).
  exists w, d, w'. split; [exact Hrun|]. split; [exact HD|].
  pose proof (recording_lengths _ _ _ Hrec) as Hlen.
  rewrite Hc, Ht, !wrap_in_int by (apply of_nat_in_int; lia). lia.
Qed.

Lemma Count_le_TotalCount_witness :
  exists w d w',
    @run plain_render scenario2 (New 0 42 [] [req_ctx0]) = Some w /\
    @Stats_Data plain_render 6000 w = Some (d, w') /\
    0 <= Count d <= TotalCount d.
Proof.
  apply (@Count_le_TotalCount plain_render 0 42 [] [req_ctx0] scenario2 6000).
  - repeat constructor.
  - vm_compute. discriminate.
Defined.

(** ** Single calls on a recorder whose maps are allocated *)

Section Calls.
Context `{Render}.

Lemma EndWithStatus_effect now start status w :
  counters_ok w ->
  exists w',
    EndWithStatus now start status w = Some (tt, w') /\
    counters_ok w' /\
    deref (maps w') (ResponseCounts (mw w')) =
      incr (Sprintf_d status) (deref (maps w) (ResponseCounts (mw w))) /\
    deref (maps w') (TotalResponseCounts (mw w')) =
      incr (Sprintf_d status) (deref (maps w) (TotalResponseCounts (mw w))) /\
    TotalResponseTime (mw w') =
      Time_Add (TotalResponseTime (mw w)) (Time_Sub now start) /\
    ResponseCounts (mw w') = ResponseCounts (mw w) /\
    TotalResponseCounts (mw w') = TotalResponseCounts (mw w) /\
    Uptime (mw w') = Uptime (mw w) /\
    Pid (mw w') = Pid (mw w) /\
    ctxs w' = ctxs w.
Proof.
  intros (li & lt & mi & mt & Hi & Ht & Hne & Hmi & Hmt).
  pose proof (lookup_lt_Some _ _ _ Hmi) as Hli.
  pose proof (lookup_lt_Some _ _ _ Hmt) as Hlt.
  eexists. split; [by eapply EndWithStatus_spec|]. simpl.
  assert (Hi' : <[lt := incr (Sprintf_d status) mt]>
                  (<[li := incr (Sprintf_d status) mi]> (maps w)) !! li =
                Some (incr (Sprintf_d status) mi)).
  { rewrite list_lookup_insert_ne by done. by apply list_lookup_insert_eq. }
  assert (Ht' : <[lt := incr (Sprintf_d status) mt]>
                  (<[li := incr (Sprintf_d status) mi]> (maps w)) !! lt =
                Some (incr (Sprintf_d status) mt)).
  { apply list_lookup_insert_eq. by rewrite length_insert. }
  rewrite Hi, Ht, Hi', Ht'. simpl. rewrite Hmi, Hmt. simpl.
  split; [|done].
  by exists li, lt, (incr (Sprintf_d status) mi), (incr (Sprintf_d status) mt).
Qed.

Lemma incr_lookup_ne k k' m : k' <> k -> incr k m !! k' = m !! k'.
Proof. intros Hne. unfold incr. by rewrite lookup_insert_ne. Qed.

End Calls.



(** X6. A recorder with a nil map, such as the zero value [Stats{}],
    cannot record: [EndWithStatus] and [End] panic on it. A nil total map
    is not repaired by [ResetResponseCounts]. [Data] does not panic on
    such a recorder and reports a nil map as empty, with a sum of 0. *)
Theorem nil_map_recorder_panics `{Render}
    (now start : Time) (status : Z) (ctx : nat) (w : World) :
  ResponseCounts (mw w) = None \/ TotalResponseCounts (mw w) = None ->
  EndWithStatus now start status w = None /\
  End now start ctx w = None /\
  (TotalResponseCounts (mw w) = None ->
   exists w1, ResetResponseCounts w = Some (tt, w1) /\
              EndWithStatus now start status w1 = None) /\
  exists d w',
    Stats_Data now w = Some (d, w') /\
    (ResponseCounts (mw w) = None ->
     Count d = 0 /\ deref (maps w') (StatusCodeCount d) = ∅) /\
    (TotalResponseCounts (mw w) = None ->
     TotalCount d = 0 /\ deref (maps w') (TotalStatusCodeCount d) = ∅ /\
     AverageResponseTime d = Duration_String 0).
Proof.
  intros Hnil.
  assert (Hend : forall s, EndWithStatus now start s w = None).
  { intros s. unfold EndWithStatus, bind, get_mw, map_incr, set_mw. simpl.
    destruct Hnil as [->|Ht]; [done|].
    destruct (ResponseCounts (mw w)) as [li|]; [|done].
    destruct (maps w !! li); [|done]. simpl. by rewrite Ht. }
  split; [apply Hend|]. split.
  { unfold End, bind, load_ctx.
    destruct (ctxs w !! ctx); [apply Hend|done]. }
  split.
  { intros Ht. eexists. split; [apply ResetResponseCounts_spec|].
    unfold EndWithStatus, bind, get_mw, map_incr, set_mw. simpl.
    rewrite lookup_app_r by lia. rewrite Nat.sub_diag. simpl.
    by rewrite Ht. }
  eexists _, _. split; [apply Stats_Data_spec|]. simpl. split.
  - intros Hi. rewrite Hi. simpl. split; [apply sum_values_empty|].
    unfold snapshot_maps. rewrite Hi. simpl.
    rewrite list_lookup_insert_ne by lia.
    rewrite list_lookup_insert_eq by (rewrite !length_app; simpl; lia). done.
  - intros Ht.
    assert (Htot : snapshot_total w = 0).
    { unfold snapshot_total. rewrite Ht. simpl. apply sum_values_empty. }
    split; [exact Htot|]. split.
    + unfold snapshot_maps. rewrite Ht. simpl.
      rewrite list_lookup_insert_eq
        by (rewrite length_insert, !length_app; simpl; lia). done.
    + unfold snapshot_average. by rewrite Htot.
Qed.

Lemma nil_map_recorder_panics_witness :
  EndWithStatus 1500 1000 200 (mkWorld zero_Stats [] [req_ctx0]) = None /\
  End 1500 1000 0%nat (mkWorld zero_Stats [] [req_ctx0]) = None /\
  exists d w',
    @Stats_Data plain_render 1500 (mkWorld zero_Stats [] [req_ctx0]) =
      Some (d, w') /\
    Count d = 0 /\ TotalCount d = 0.
Proof.
  destruct (@nil_map_recorder_panics plain_render 1500 1000 200 0%nat
              (mkWorld zero_Stats [] [req_ctx0]))
    as (Hend & HEnd & _ & d & w' & HD & Hi & Ht).
  - left. reflexivity.
  - split; [exact Hend|]. split; [exact HEnd|].
    exists d, w'. split; [exact HD|].
    destruct Hi as [Hi _]; [reflexivity|].
    destruct Ht as [Ht _]; [reflexivity|]. split; assumption.
Defined.

(** ** Requests reported directly *)

Section Direct.
Context `{Render}.

Lemma end_calls_ok n reqs : Forall (call_ok n) (end_call <$> reqs).
Proof. apply Forall_fmap, Forall_true. by intros [[??]?]. Qed.


End Direct.



(** X8. The order in which Go's [range] visits the entries of a map does
    not matter to the copy loop of [Data]: for every order, the loop ends
    without a panic, leaves a copy of the source in the empty destination
    and returns the sum of the values, modulo 2^64. *)
Theorem range_loop_any_order
    (m : gmap string Z) (entries1 entries2 : list (string * Z))
    (l : nat) (w : World) :
  entries1 ≡ₚ map_to_list m ->
  entries2 ≡ₚ map_to_list m ->
  maps w !! l = Some ∅ ->
  range_loop entries1 (Some l) 0 w = range_loop entries2 (Some l) 0 w /\
  range_loop entries1 (Some l) 0 w =
    Some (wrap (sumZ (map_to_list m).*2),
          mkWorld (mw w) (<[l := m]> (maps w)) (ctxs w)).
Proof.
  intros Hp1 Hp2 Hl.
  rewrite (range_loop_order m entries1), (range_loop_order m entries2)
    by done.
  by rewrite sum_values_wrap.
Qed.

Lemma range_loop_any_order_witness :
  range_loop [("200", 2); ("404", 1)] (Some 0%nat) 0
    (mkWorld zero_Stats [∅] []) =
  range_loop [("404", 1); ("200", 2)] (Some 0%nat) 0
    (mkWorld zero_Stats [∅] []).
Proof.
  apply (range_loop_any_order {[ "200" := 2; "404" := 1 ]}
           [("200", 2); ("404", 1)] [("404", 1); ("200", 2)] 0%nat
           (mkWorld zero_Stats [∅] [])).
  - vm_compute. (reflexivity || apply perm_swap).
  - vm_compute. (reflexivity || apply perm_swap).
  - reflexivity.
Defined.

(** X9. The counters are Go [int]s: from a new recorder, with N the number
    of completed requests of a run, the snapshot reports [TotalCount] = N
    modulo 2^64 (as a signed 64-bit number) and, for every status code
    [c], the number of requests with that code modulo 2^64; the same for
    [Count] and the requests since the last reset. *)
Theorem counters_wrap_around `{Render}
    (now : Time) (pid : Z) (h : list (gmap string Z)) (cs : list RequestCtx)
    (calls : list call) (now' : Time) :
  Forall (call_ok (length cs)) calls ->
  exists w d w',
    run calls (New now pid h cs) = Some w /\
    Stats_Data now' w = Some (d, w') /\
    TotalCount d =
      wrap (Z.of_nat (length (codes calls (New now pid h cs)))) /\
    Count d =
      wrap (Z.of_nat (length (codes_since calls (New now pid h cs) []))) /\
    in_int (TotalCount d) /\
    in_int (Count d) /\
    forall c : Z,
      index (deref (maps w') (TotalStatusCodeCount d)) (Sprintf_d c) =
      wrap (Z.of_nat (length (filter (fun ci => ci = c)
                                     (codes calls (New now pid h cs))))).
Proof.
  intros Hok.
  destruct (run_steps calls _ [] [] (New_recording now pid h cs) Hok)
    as (w & Hrun & Hrec & _).
  simpl in Hrec.
  destruct (recording_snapshot now' _ _ _ Hrec)
    as (d & w' & HD & _ & Hc & Ht & _ & Hmt).
  exists w, d, w'. split; [exact Hrun|]. split; [exact HD|].
  split; [exact Ht|]. split; [exact Hc|].
  split; [rewrite Ht; apply wrap_range|].
  split; [rewrite Hc; apply wrap_range|].
  intros c. by rewrite Hmt, tally_index, occ_Sprintf_d.
Qed.

Lemma counters_wrap_around_witness :
  exists w d w',
    @run plain_render scenario2 (New 0 42 [] [req_ctx0]) = Some w /\
    @Stats_Data plain_render 6000 w = Some (d, w') /\
    TotalCount d = 4 /\
    Count d = 1.
Proof.
  destruct (@counters_wrap_around plain_render 0 42 [] [req_ctx0]
              scenario2 6000)
    as (w & d & w' & Hrun & HD & Ht & Hc & _).
  - repeat constructor.
  - exists w, d, w'. split; [exact Hrun|]. split; [exact HD|].
    split; [rewrite Ht|rewrite Hc]; reflexivity.
Defined.

(** X10. The total response time that [Data] reports stops at the greatest
    Duration: from a new recorder and with non-negative latencies it is
    the smaller of the sum of the latencies and 2^63-1 nanoseconds. *)
Theorem total_duration_saturates `{Render}
    (now : Time) (pid : Z) (h : list (gmap string Z)) (cs : list RequestCtx)
    (calls : list call) (now' : Time) :
  Forall (call_ok (length cs)) calls ->
  Forall (fun c => 0 <= elapsed c) calls ->
  exists w d w',
    run calls (New now pid h cs) = Some w /\
    Stats_Data now' w = Some (d, w') /\
    total_duration w = Z.min (sumZ (elapsed <$> calls)) maxDuration /\
    D_TotalResponseTime d =
      Duration_String (Z.min (sumZ (elapsed <$> calls)) maxDuration) /\
    TotalResponseTimeSec d =
      Duration_Seconds (Z.min (sumZ (elapsed <$> calls)) maxDuration).
Proof.
  intros Hok Hpos.
  destruct (run_steps calls _ [] [] (New_recording now pid h cs) Hok)
    as (w & Hrun & Hrec & _).
  assert (Hd : total_duration w = Z.min (sumZ (elapsed <$> calls)) maxDuration).
  { unfold total_duration, Time_Sub. rewrite (run_time _ _ _ Hrun).
    assert (Hs : 0 <= sumZ (elapsed <$> calls))
      by (apply sumZ_nonneg; by rewrite Forall_fmap).
    unfold Time_Add, Time_zero. simpl. unfold Time_zero.
    unfold saturate, minDuration, maxDuration in *.
    repeat case_decide; lia. }
  eexists w, _, _. split; [exact Hrun|]. split; [apply Stats_Data_spec|].
  simpl. by rewrite Hd.
Qed.

Lemma total_duration_saturates_witness :
  exists w,
    @run plain_render
      [CallEndWithStatus (2 ^ 63) 0 200; CallEndWithStatus (2 ^ 63) 0 200]
      (New 0 42 [] []) = Some w /\
    sumZ (elapsed <$>
      [CallEndWithStatus (2 ^ 63) 0 200; CallEndWithStatus (2 ^ 63) 0 200]) =
      2 * maxDuration /\
    total_duration w = maxDuration.
Proof.
  destruct (@total_duration_saturates plain_render 0 42 [] []
              [CallEndWithStatus (2 ^ 63) 0 200;
               CallEndWithStatus (2 ^ 63) 0 200] 0)
    as (w & d & w' & Hrun & _ & Hd & _).
  - repeat constructor.
  - repeat constructor; vm_compute; discriminate.
  - exists w. split; [exact Hrun|]. split; [reflexivity|].
    rewrite Hd. reflexivity.
Defined.

(** X11. No call changes [Uptime] or [Pid]: after every run from a new
    recorder they are what [New] was given, and the snapshot reports that
    pid, the time since that start, and the time of the snapshot. *)
Theorem Uptime_Pid_constant `{Render}
    (now : Time) (pid : Z) (h : list (gmap string Z)) (cs : list RequestCtx)
    (calls : list call) (now' : Time) :
  Forall (call_ok (length cs)) calls ->
  exists w d w',
    run calls (New now pid h cs) = Some w /\
    Stats_Data now' w = Some (d, w') /\
    Uptime (mw w) = now /\
    Pid (mw w) = pid /\
    D_Pid d = pid /\
    UpTime d = Duration_String (Time_Sub now' now) /\
    UpTimeSec d = Duration_Seconds (Time_Sub now' now) /\
    Time_ d = Time_String now' /\
    TimeUnix d = Time_Unix now'.
Proof.
  intros Hok.
  destruct (run_steps calls _ [] [] (New_recording now pid h cs) Hok)
    as (w & Hrun & _ & _ & Hup & Hpid & _).
  simpl in Hup, Hpid.
  eexists w, _, _. split; [exact Hrun|]. split; [apply Stats_Data_spec|].
  simpl. rewrite Hup, Hpid. done.
Qed.

Lemma Uptime_Pid_constant_witness :
  exists w d w',
    @run plain_render scenario2 (New 7 42 [] [req_ctx0]) = Some w /\
    @Stats_Data plain_render 6000 w = Some (d, w') /\
    D_Pid d = 42 /\
    @UpTime plain_render d = "5993ns".
Proof.
  destruct (@Uptime_Pid_constant plain_render 7 42 [] [req_ctx0]
              scenario2 6000)
    as (w & d & w' & Hrun & HD & _ & _ & Hpid & Hup & _).
  - repeat constructor.
  - exists w, d, w'. split; [exact Hrun|]. split; [exact HD|].
    split; [exact Hpid|]. rewrite Hup. reflexivity.
Defined.

(** X12. From a new recorder, the maps hold nothing but counts of
    recorded requests: every key present in the total map or in the
    interval map is the decimal numeral of the status code of a completed
    request, reads back as that code, and has a count of at least 1. The
    number of completed requests is a value of Go's [int]. *)
Theorem counter_keys_are_status_codes `{Render}
    (now : Time) (pid : Z) (h : list (gmap string Z)) (cs : list RequestCtx)
    (calls : list call) :
  Forall (call_ok (length cs)) calls ->
  Z.of_nat (length (codes calls (New now pid h cs))) <= int_max ->
  exists w,
    run calls (New now pid h cs) = Some w /\
    forall (key : string) (n : Z),
      deref (maps w) (TotalResponseCounts (mw w)) !! key = Some n \/
      deref (maps w) (ResponseCounts (mw w)) !! key = Some n ->
      1 <= n /\
      exists c : Z,
        c ∈ codes calls (New now pid h cs) /\
        key = Sprintf_d c /\
        decimal_value key = Some c.
Proof.
  intros Hok HN.
  destruct (run_steps calls _ [] [] (New_recording now pid h cs) Hok)
    as (w & Hrun & Hrec & _).
  simpl in Hrec. exists w. split; [exact Hrun|].
  destruct (recording_ref_ok _ _ _ Hrec) as (_ & _ & Hdi & Hdt).
  pose proof (recording_lengths _ _ _ Hrec) as Hlen.
  intros key n. rewrite Hdi, Hdt, !tally_lookup.
  intros [Hkey|Hkey].
  - case_decide as Hocc; [done|]. injection Hkey as <-.
    pose proof (occ_le_length key (codes calls (New now pid h cs))).
    rewrite wrap_in_int by (apply of_nat_in_int; lia).
    split; [lia|].
    destruct (occ_pos_elem _ _ Hocc) as (c & Hc & <-).
    exists c. split; [done|]. split; [done|]. apply Sprintf_d_decimal.
  - case_decide as Hocc; [done|]. injection Hkey as <-.
    pose proof (occ_le_length key
                  (codes_since calls (New now pid h cs) [])).
    rewrite wrap_in_int by (apply of_nat_in_int; lia).
    split; [lia|].
    destruct (occ_pos_elem _ _ Hocc) as (c & Hc & <-).
    exists c. split; [by eapply recording_since_elem|].
    split; [done|]. apply Sprintf_d_decimal.
Qed.

Lemma counter_keys_are_status_codes_witness :
  exists w,
    @run plain_render scenario2 (New 0 42 [] [req_ctx0]) = Some w /\
    deref (maps w) (TotalResponseCounts (mw w)) !! "404" = Some 1 /\
    decimal_value "404" = Some 404.
Proof.
  destruct (@counter_keys_are_status_codes plain_render 0 42 [] [req_ctx0]
              scenario2) as (w & Hrun & Hkeys).
  - repeat constructor.
  - vm_compute. discriminate.
  - exists w. split; [exact Hrun|].
    assert (Hw : w = @after_scenario2 plain_render).
    { vm_compute in Hrun. injection Hrun as <-. reflexivity. }
    assert (Hl : deref (maps w) (TotalResponseCounts (mw w)) !! "404" = Some 1)
      by (rewrite Hw; reflexivity).
    split; [exact Hl|].
    destruct (Hkeys "404" 1 (or_introl Hl)) as (_ & c & _ & Hkey & Hdec).
    rewrite Hdec. f_equal. apply Sprintf_d_inj. rewrite <- Hkey. reflexivity.
Defined.

(** X13. The total counts never decrease: from a new recorder, whatever a
    run goes on to do, resets included, the total count of every key
    after it is at least what it was before, and no key of the total map
    disappears. The number of completed requests is a value of Go's
    [int]. *)
Theorem total_counts_never_decrease `{Render}
    (now : Time) (pid : Z) (h : list (gmap string Z)) (cs : list RequestCtx)
    (calls1 calls2 : list call) :
  Forall (call_ok (length cs)) (calls1 ++ calls2) ->
  Z.of_nat (length (codes (calls1 ++ calls2) (New now pid h cs))) <= int_max ->
  exists w1 w2,
    run calls1 (New now pid h cs) = Some w1 /\
    run calls2 w1 = Some w2 /\
    forall key : string,
      index (deref (maps w1) (TotalResponseCounts (mw w1))) key <=
      index (deref (maps w2) (TotalResponseCounts (mw w2))) key /\
      (is_Some (deref (maps w1) (TotalResponseCounts (mw w1)) !! key) ->
       is_Some (deref (maps w2) (TotalResponseCounts (mw w2)) !! key)).
Proof.
  intros Hok HN. apply Forall_app in Hok as [Hok1 Hok2].
  destruct (run_steps calls1 _ [] [] (New_recording now pid h cs) Hok1)
    as (w1 & Hrun1 & Hrec1 & Hlen1 & _).
  simpl in Hrec1, Hlen1. rewrite <- Hlen1 in Hok2.
  destruct (run_steps calls2 _ _ _ Hrec1 Hok2) as (w2 & Hrun2 & Hrec2 & _).
  rewrite codes_app, Hrun1, length_app in HN.
  exists w1, w2. split; [done|]. split; [done|].
  destruct (recording_ref_ok _ _ _ Hrec1) as (_ & _ & _ & Hdt1).
  destruct (recording_ref_ok _ _ _ Hrec2) as (_ & _ & _ & Hdt2).
  intros key. rewrite Hdt1, Hdt2, !tally_index, !tally_lookup, occ_app.
  pose proof (occ_le_length key (codes calls1 (New now pid h cs))).
  pose proof (occ_le_length key (codes calls2 w1)).
  split.
  - rewrite !wrap_in_int by (apply of_nat_in_int; lia). lia.
  - repeat case_decide; try lia; intros [? ?]; by eauto.
Qed.

Lemma total_counts_never_decrease_witness :
  exists w1 w2,
    @run plain_render scenario1 (New 0 42 [] [req_ctx0]) = Some w1 /\
    @run plain_render (skipn 7 scenario2) w1 = Some w2 /\
    index (deref (maps w1) (TotalResponseCounts (mw w1))) "200" <=
    index (deref (maps w2) (TotalResponseCounts (mw w2))) "200".
Proof.
  destruct (@total_counts_never_decrease plain_render 0 42 [] [req_ctx0]
              scenario1 (skipn 7 scenario2))
    as (w1 & w2 & Hrun1 & Hrun2 & Hkeys).
  - repeat constructor.
  - vm_compute. discriminate.
  - exists w1, w2. split; [exact Hrun1|]. split; [exact Hrun2|].
    apply Hkeys.
Defined.

(** X14. [Data] reports as [Count] and [TotalCount] the sums of the values
    of the two maps it returns, modulo 2^64 as signed 64-bit numbers. The
    recorder's map references are nil or allocated. *)
Theorem Data_counts_are_sums `{Render} (now : Time) (w : World) :
  ref_ok (maps w) (ResponseCounts (mw w)) ->
  ref_ok (maps w) (TotalResponseCounts (mw w)) ->
  exists d w',
    Stats_Data now w = Some (d, w') /\
    Count d =
      wrap (sumZ (map_to_list (deref (maps w') (StatusCodeCount d))).*2) /\
    TotalCount d =
      wrap (sumZ (map_to_list (deref (maps w') (TotalStatusCodeCount d))).*2) /\
    in_int (Count d) /\
    in_int (TotalCount d).
Proof.
  intros Hri Hrt.
  eexists _, _. split; [apply Stats_Data_spec|].
  cbn [Count TotalCount StatusCodeCount TotalStatusCodeCount maps deref].
  rewrite snapshot_maps_interval, snapshot_maps_totals by done.
  rewrite snapshot_interval, snapshot_total_ok by done. simpl.
  rewrite !sum_values_wrap.
  split; [done|]. split; [done|]. split; apply wrap_range.
Qed.

Lemma Data_counts_are_sums_witness :
  exists d w',
    @Stats_Data plain_render 6000 (@after_scenario2 plain_render) =
      Some (d, w') /\
    Count d = 1 /\
    TotalCount d = 4 /\
    sumZ (map_to_list (deref (maps w') (TotalStatusCodeCount d))).*2 = 4.
Proof.
  destruct (@Data_counts_are_sums plain_render 6000
              (@after_scenario2 plain_render))
    as (d & w' & HD & Hc & Ht & _).
  - simpl. lia.
  - simpl. lia.
  - exists d, w'. split; [exact HD|].
    rewrite Stats_Data_spec in HD. injection HD as <- <-.
    repeat split; reflexivity.
Defined.

(** X15. Recording a request with one status leaves the counts of every
    other status as they were, in both maps, and does not touch the
    request contexts, [Uptime], [Pid] or the recorder's map references. *)
Theorem EndWithStatus_other_statuses
    (now start : Time) (status status' : Z) (w : World) :
  counters_ok w ->
  status' <> status ->
  exists w',
    EndWithStatus now start status w = Some (tt, w') /\
    deref (maps w') (ResponseCounts (mw w')) !! Sprintf_d status' =
      deref (maps w) (ResponseCounts (mw w)) !! Sprintf_d status' /\
    deref (maps w') (TotalResponseCounts (mw w')) !! Sprintf_d status' =
      deref (maps w) (TotalResponseCounts (mw w)) !! Sprintf_d status' /\
    ResponseCounts (mw w') = ResponseCounts (mw w) /\
    TotalResponseCounts (mw w') = TotalResponseCounts (mw w) /\
    Uptime (mw w') = Uptime (mw w) /\
    Pid (mw w') = Pid (mw w) /\
    ctxs w' = ctxs w.
Proof.
  intros Hcnt Hne.
  destruct (@EndWithStatus_effect now start status w Hcnt)
    as (w' & Hend & _ & Hi & Ht & _ & Hri & Hrt & Hup & Hpid & Hctx).
  exists w'. split; [exact Hend|]. rewrite Hi, Ht.
  assert (Hk : Sprintf_d status' <> Sprintf_d status)
    by (intros Heq; by apply Sprintf_d_inj in Heq).
  rewrite !incr_lookup_ne by done. done.
Qed.

Lemma EndWithStatus_other_statuses_witness :
  exists w',
    EndWithStatus 6000 5500 200 (@after_scenario1 plain_render) =
      Some (tt, w') /\
    deref (maps w') (TotalResponseCounts (mw w')) !! Sprintf_d 404 = Some 1.
Proof.
  destruct (EndWithStatus_other_statuses 6000 5500 200 404
              (@after_scenario1 plain_render))
    as (w' & Hend & _ & Ht & _).
  - eexists 0%nat, 1%nat, _, _. repeat split; (reflexivity || lia).
  - lia.
  - exists w'. split; [exact Hend|]. rewrite Ht. reflexivity.
Defined.

(** ** Runs with and without snapshots *)

Section Transparency.
Context `{Render}.

Lemma recorded_ctxs c wa wb : ctxs wa = ctxs wb -> recorded wa c = recorded wb c.
Proof. intros Heq. destruct c; simpl; by rewrite ?Heq. Qed.

Lemma without_snapshots_cons c calls :
  without_snapshots (c :: calls) =
  if is_snapshot c then without_snapshots calls
  else c :: without_snapshots calls.
Proof.
  unfold without_snapshots. rewrite filter_cons.
  destruct (is_snapshot c); by case_decide.
Qed.

Lemma without_snapshots_elapsed calls :
  sumZ (elapsed <$> without_snapshots calls) = sumZ (elapsed <$> calls).
Proof.
  induction calls as [|c calls IH]; [done|].
  rewrite without_snapshots_cons, fmap_cons. simpl.
  destruct (is_snapshot c) eqn:Hsnap.
  - destruct c; try discriminate. rewrite IH. reflexivity.
  - rewrite fmap_cons. simpl. lia.
Qed.

(** Two runs that differ in their snapshots only, from states that have
    recorded the same, record the same. *)
Lemma run_without_snapshots calls wa wb all since :
  recording wa all since ->
  recording wb all since ->
  ctxs wa = ctxs wb ->
  Forall (call_ok (length (ctxs wa))) calls ->
  exists wa' wb' all' since',
    run calls wa = Some wa' /\
    run (without_snapshots calls) wb = Some wb' /\
    recording wa' all' since' /\
    recording wb' all' since' /\
    ctxs wa' = ctxs wb'.
Proof.
  revert wa wb all since.
  induction calls as [|c calls IH]; intros wa wb all since Ha Hb Hctx Hok.
  - exists wa, wb, all, since. done.
  - apply Forall_cons in Hok as [Hc Hok].
    destruct (exec_step c wa all since Ha Hc)
      as (wa1 & Hexa & Ha1 & Hctxa & _).
    assert (Hla : length (ctxs wa1) = length (ctxs wa))
      by (rewrite Hctxa; apply ctxs_step_length).
    rewrite <- Hla in Hok.
    rewrite without_snapshots_cons. simpl. rewrite Hexa.
    destruct (is_snapshot c) eqn:Hsnap.
    + destruct c; try discriminate. simpl in *.
      rewrite !(right_id_L [] (++)) in Ha1.
      apply (IH wa1 wb all since Ha1 Hb); [congruence|done].
    + rewrite Hctx in Hc.
      destruct (exec_step c wb all since Hb Hc)
        as (wb1 & Hexb & Hb1 & Hctxb & _).
      simpl. rewrite Hexb.
      assert (Hsince : since_step c wa since = since_step c wb since).
      { destruct c; simpl; by rewrite ?Hctx. }
      rewrite <- (recorded_ctxs c wa wb Hctx), <- Hsince in Hb1.
      apply (IH wa1 wb1 _ _ Ha1 Hb1); [congruence|done].
Qed.

End Transparency.

(** X16. Snapshots do not disturb the recorder: a run from a new recorder
    and the same run with its [Data] calls left out end with the same
    interval counts, the same total counts, the same total response time
    and the same request contexts. *)
Theorem snapshots_are_transparent `{Render}
    (now : Time) (pid : Z) (h : list (gmap string Z)) (cs : list RequestCtx)
    (calls : list call) :
  Forall (call_ok (length cs)) calls ->
  exists w w',
    run calls (New now pid h cs) = Some w /\
    run (without_snapshots calls) (New now pid h cs) = Some w' /\
    deref (maps w) (ResponseCounts (mw w)) =
      deref (maps w') (ResponseCounts (mw w')) /\
    deref (maps w) (TotalResponseCounts (mw w)) =
      deref (maps w') (TotalResponseCounts (mw w')) /\
    TotalResponseTime (mw w) = TotalResponseTime (mw w') /\
    ctxs w = ctxs w'.
Proof.
  intros Hok.
  pose proof (New_recording now pid h cs) as Hrec.
  destruct (run_without_snapshots calls _ _ _ _ Hrec Hrec eq_refl Hok)
    as (w & w' & all & since & Hrun & Hrun' & Ha & Hb & Hctx).
  exists w, w'. split; [done|]. split; [done|].
  destruct (recording_ref_ok _ _ _ Ha) as (_ & _ & Hi & Ht).
  destruct (recording_ref_ok _ _ _ Hb) as (_ & _ & Hi' & Ht').
  rewrite Hi, Hi', Ht, Ht'. split; [done|]. split; [done|].
  split; [|done].
  rewrite (run_time _ _ _ Hrun), (run_time _ _ _ Hrun').
  by rewrite without_snapshots_elapsed.
Qed.

Lemma snapshots_are_transparent_witness :
  exists w w',
    @run plain_render (CallData 100 :: scenario1 ++ [CallData 4000])
      (New 0 42 [] [req_ctx0]) = Some w /\
    @run plain_render scenario1 (New 0 42 [] [req_ctx0]) = Some w' /\
    deref (maps w) (TotalResponseCounts (mw w)) =
      deref (maps w') (TotalResponseCounts (mw w')) /\
    TotalResponseTime (mw w) = TotalResponseTime (mw w').
Proof.
  destruct (@snapshots_are_transparent plain_render 0 42 [] [req_ctx0]
              (CallData 100 :: scenario1 ++ [CallData 4000]))
    as (w & w' & Hrun & Hrun' & _ & Ht & HT & _).
  - repeat constructor.
  - exists w, w'. repeat split; assumption.
Defined.

(** X17. A snapshot keeps what it has copied: from a new recorder, the two
    maps that a [Data] call returns hold, after every run that follows,
    requests and resets included, the counts that the recorder had when
    the snapshot was taken. *)
Theorem snapshot_is_stable `{Render}
    (now : Time) (pid : Z) (h : list (gmap string Z)) (cs : list RequestCtx)
    (calls1 calls2 : list call) (now' : Time) :
  Forall (call_ok (length cs)) (calls1 ++ calls2) ->
  exists w1 d w1' w2,
    run calls1 (New now pid h cs) = Some w1 /\
    Stats_Data now' w1 = Some (d, w1') /\
    run calls2 w1' = Some w2 /\
    deref (maps w2) (StatusCodeCount d) =
      deref (maps w1) (ResponseCounts (mw w1)) /\
    deref (maps w2) (TotalStatusCodeCount d) =
      deref (maps w1) (TotalResponseCounts (mw w1)).
Proof.
  intros Hok. apply Forall_app in Hok as [Hok1 Hok2].
  destruct (run_steps calls1 _ [] [] (New_recording now pid h cs) Hok1)
    as (w1 & Hrun1 & Hrec1 & Hlen1 & _).
  simpl in Hlen1. rewrite <- Hlen1 in Hok2.
  destruct (exec_step (CallData now') w1 _ _ Hrec1 I)
    as (w1' & Hex & Hrec1' & Hctx1' & _).
  simpl in Hex, Hctx1'. unfold bind in Hex.
  rewrite Stats_Data_spec in Hex. injection Hex as <-.
  simpl in Hok2.
  destruct (recording_ref_ok _ _ _ Hrec1) as (Hri & Hrt & _ & _).
  set (w1' := mkWorld (mw w1) (snapshot_maps w1) (ctxs w1)) in *.
  destruct (run_steps calls2 w1' _ _ Hrec1' Hok2)
    as (w2 & Hrun2 & _ & _ & _ & _ & _ & Hfor).
  eexists w1, _, _, w2. split; [exact Hrun1|].
  split; [apply Stats_Data_spec|]. fold w1'. split; [exact Hrun2|].
  pose proof (ref_ok_fresh _ _ Hri 0) as Hi0.
  pose proof (ref_ok_fresh _ _ Hri 1) as Hi1.
  pose proof (ref_ok_fresh _ _ Hrt 0) as Ht0.
  pose proof (ref_ok_fresh _ _ Hrt 1) as Ht1.
  rewrite Nat.add_0_r in Hi0, Ht0. rewrite Nat.add_1_r in Hi1, Ht1.
  assert (Hf1 : foreign w1' (length (maps w1))).
  { unfold foreign. simpl. rewrite snapshot_maps_length. split; [lia|done]. }
  assert (Hf2 : foreign w1' (S (length (maps w1)))).
  { unfold foreign. simpl. rewrite snapshot_maps_length. split; [lia|done]. }
  destruct (Hfor _ Hf1) as [_ Heq1]. destruct (Hfor _ Hf2) as [_ Heq2].
  cbn [StatusCodeCount TotalStatusCodeCount deref].
  rewrite Heq1, Heq2. simpl.
  by rewrite snapshot_maps_interval, snapshot_maps_totals.
Qed.

Lemma snapshot_is_stable_witness :
  exists w1 d w1' w2,
    @run plain_render scenario1 (New 0 42 [] [req_ctx0]) = Some w1 /\
    @Stats_Data plain_render 4000 w1 = Some (d, w1') /\
    @run plain_render (skipn 7 scenario2) w1' = Some w2 /\
    deref (maps w2) (StatusCodeCount d) =
      deref (maps w1) (ResponseCounts (mw w1)) /\
    deref (maps w2) (TotalStatusCodeCount d) =
      deref (maps w1) (TotalResponseCounts (mw w1)).
Proof.
  apply (@snapshot_is_stable plain_render 0 42 [] [req_ctx0]
           scenario1 (skipn 7 scenario2) 4000).
  repeat constructor.
Defined.

(** X18. From a new recorder, after a run that completes N > 0 requests
    with non-negative latencies, the average response time of the
    snapshot is the sum of the latencies divided by N, truncated towards
    zero. N is a value of Go's [int] and the sum a Duration. *)
Theorem average_is_mean_latency `{Render}
    (now : Time) (pid : Z) (h : list (gmap string Z)) (cs : list RequestCtx)
    (calls : list call) (now' : Time) :
  Forall (call_ok (length cs)) calls ->
  Forall (fun c => 0 <= elapsed c) calls ->
  0 < Z.of_nat (length (codes calls (New now pid h cs))) <= int_max ->
  sumZ (elapsed <$> calls) <= maxDuration ->
  exists w d w',
    run calls (New now pid h cs) = Some w /\
    Stats_Data now' w = Some (d, w') /\
    AverageResponseTime d =
      Duration_String
        (sumZ (elapsed <$> calls) ÷
         Z.of_nat (length (codes calls (New now pid h cs)))) /\
    AverageResponseTimeSec d =
      Duration_Seconds
        (sumZ (elapsed <$> calls) ÷
         Z.of_nat (length (codes calls (New now pid h cs)))).
Proof.
  intros Hok Hpos HN Hmax.
  destruct (run_steps calls _ [] [] (New_recording now pid h cs) Hok)
    as (w & Hrun & Hrec & _).
  simpl in Hrec.
  assert (Hd : total_duration w = sumZ (elapsed <$> calls)).
  { unfold total_duration, Time_Sub. rewrite (run_time _ _ _ Hrun).
    assert (Hs : 0 <= sumZ (elapsed <$> calls))
      by (apply sumZ_nonneg; by rewrite Forall_fmap).
    unfold Time_Add, Time_zero. simpl. unfold Time_zero.
    rewrite saturate_id by (unfold minDuration; lia). lia. }
  assert (Ht : snapshot_total w =
               Z.of_nat (length (codes calls (New now pid h cs)))).
  { rewrite (snapshot_total_wraps _ _ _ Hrec).
    apply wrap_in_int, of_nat_in_int. lia. }
  eexists w, _, _. split; [exact Hrun|]. split; [apply Stats_Data_spec|].
  simpl. unfold snapshot_average.
  rewrite Ht, Hd, decide_True by lia. done.
Qed.

Lemma average_is_mean_latency_witness :
  exists w d w',
    @run plain_render scenario2 (New 0 42 [] [req_ctx0]) = Some w /\
    @Stats_Data plain_render 6000 w = Some (d, w') /\
    @AverageResponseTime plain_render d = "400ns".
Proof.
  destruct (@average_is_mean_latency plain_render 0 42 [] [req_ctx0]
              scenario2 6000) as (w & d & w' & Hrun & HD & Havg & _).
  - repeat constructor.
  - repeat constructor; vm_compute; discriminate.
  - split; vm_compute; [reflexivity|discriminate].
  - vm_compute. discriminate.
  - exists w, d, w'. split; [exact Hrun|]. split; [exact HD|].
    rewrite Havg. reflexivity.
Defined.
